(** * The formatting logic of src/index.tsx

    A shallow embedding of [numberToWords], [dateToWords], [toTitleCase]
    and [formatParagraph], with the JavaScript built-ins they call.

    Modelling choices.
    - A JavaScript string is a [string]; the model covers 7-bit ASCII text:
      case mapping touches the letters A-Z and a-z only, and white space is
      the ASCII white space (tab, LF, VT, FF, CR, space).
    - A JavaScript number is a [number]: [NaN], or an integer [Num z].
      [Math.floor (n / k)] and [n % k] on integers below 2^53 are exact, so
      they are [Z.div] and [Z.rem].
    - [Number s] (the conversion of a string) is modelled on the empty
      string, the decimal digit strings of value at most 2^53, and the
      strings that are no numeric literal at all (the result is [NaN]).  On
      the other numeric literals (a sign, a fraction, an exponent, a radix
      prefix, Infinity) the model gives [None]: it says nothing there.
      [dateToWords] and [formatParagraph] inherit that [option].
    - The handlers of the page (the upload queue, the reader callbacks, the
      process and reset buttons) are state transformers over a record of
      what they read and write; see [Page]. *)

From Stdlib Require Import ZArith List Bool Lia Ascii String DecimalString.
From Equations Require Import Equations.
Import ListNotations.

Local Open Scope string_scope.
Local Open Scope Z_scope.

(** ** Characters and strings *)

Module Js.

Definition code (c : ascii) : N := N_of_ascii c.

Definition between (lo hi c : ascii) : bool :=
  ((code lo <=? code c) && (code c <=? code hi))%N.

Definition isUpper (c : ascii) : bool := between "A" "Z" c.
Definition isLower (c : ascii) : bool := between "a" "z" c.
Definition isDigit (c : ascii) : bool := between "0" "9" c.

(** White space and line terminators, as [trim] and [Number] strip them. *)
Definition isSpace (c : ascii) : bool :=
  between "009" "013" c || Ascii.eqb c " ".

(** The class [\w] of a regular expression without the [u] flag. *)
Definition isWordChar (c : ascii) : bool :=
  isUpper c || isLower c || isDigit c || Ascii.eqb c "_".

Definition upperChar (c : ascii) : ascii :=
  if isLower c then ascii_of_N (code c - 32) else c.

Definition lowerChar (c : ascii) : ascii :=
  if isUpper c then ascii_of_N (code c + 32) else c.

Fixpoint mapChars (f : ascii -> ascii) (s : string) : string :=
  match s with
  | EmptyString => EmptyString
  | String c s' => String (f c) (mapChars f s')
  end.

Definition toUpperCase : string -> string := mapChars upperChar.
Definition toLowerCase : string -> string := mapChars lowerChar.

(** A string is truthy when it is not empty. *)
Definition truthy (s : string) : bool :=
  match s with EmptyString => false | String _ _ => true end.

Fixpoint trimStart (s : string) : string :=
  match s with
  | EmptyString => EmptyString
  | String c s' => if isSpace c then trimStart s' else s
  end.

Fixpoint trimEnd (s : string) : string :=
  match s with
  | EmptyString => EmptyString
  | String c s' =>
      let r := trimEnd s' in
      if isSpace c && negb (truthy r) then EmptyString else String c r
  end.

Definition trim (s : string) : string := trimEnd (trimStart s).

(** [s.includes(sub)] *)
Fixpoint includes (s sub : string) : bool :=
  prefix sub s ||
  match s with
  | EmptyString => false
  | String _ s' => includes s' sub
  end.

(** [s.split(sep)] for a separator of one character. *)
Fixpoint split (sep : ascii) (s : string) : list string :=
  match s with
  | EmptyString => [EmptyString]
  | String c s' =>
      if Ascii.eqb c sep then EmptyString :: split sep s'
      else match split sep s' with
           | [] => [String c EmptyString]
           | part :: parts => String c part :: parts
           end
  end.

(** The filler of [padStart]: [k] characters of [fill] repeated. *)
Fixpoint filler (k : nat) (fill rest : string) : string :=
  match k with
  | O => EmptyString
  | S k' =>
      match rest with
      | String c r => String c (filler k' fill r)
      | EmptyString =>
          match fill with
          | String c r => String c (filler k' fill r)
          | EmptyString => EmptyString
          end
      end
  end.

(** [s.padStart(targetLength, fill)] *)
Definition padStart (targetLength : nat) (fill s : string) : string :=
  filler (targetLength - String.length s) fill fill ++ s.

(** [xs[i]] for an integer [i]; [None] is [undefined]. *)
Definition item (xs : list string) (i : Z) : option string :=
  if i <? 0 then None else nth_error xs (Z.to_nat i).

(** What a template literal or [+] makes of a value that may be
    [undefined]. *)
Definition str (v : option string) : string :=
  match v with Some s => s | None => "undefined" end.

End Js.

(** ** Numbers *)

Inductive number : Type :=
| NaN
| Num (z : Z).

Module Num.

(** [Math.floor(n / k)], for a positive integer [k]. *)
Definition floorDiv (n : number) (k : Z) : number :=
  match n with NaN => NaN | Num z => Num (z / k) end.

(** [n % k]: the remainder has the sign of [n]. *)
Definition rem (n : number) (k : Z) : number :=
  match n with NaN => NaN | Num z => Num (Z.rem z k) end.

(** [n - k] *)
Definition minus (n : number) (k : Z) : number :=
  match n with NaN => NaN | Num z => Num (z - k) end.

(** [n === k] *)
Definition strictEq (n : number) (k : Z) : bool :=
  match n with NaN => false | Num z => z =? k end.

(** [n > k], [n < k] and [n >= k]: false on [NaN]. *)
Definition gt (n : number) (k : Z) : bool :=
  match n with NaN => false | Num z => k <? z end.
Definition lt (n : number) (k : Z) : bool :=
  match n with NaN => false | Num z => z <? k end.
Definition ge (n : number) (k : Z) : bool :=
  match n with NaN => false | Num z => k <=? z end.

(** [xs[n]]: the property named by [NaN] does not exist. *)
Definition at_ (xs : list string) (n : number) : option string :=
  match n with NaN => None | Num z => Js.item xs z end.

(** The measure of the recursion of [numberToWords]. *)
Definition magnitude (n : number) : nat :=
  match n with NaN => O | Num z => Z.to_nat z end.

End Num.

(** ** numberToWords *)

Definition units : list string :=
  [""; "satu"; "dua"; "tiga"; "empat"; "lima"; "enam"; "tujuh"; "delapan";
   "sembilan"].
Definition teens : list string :=
  ["sepuluh"; "sebelas"; "dua belas"; "tiga belas"; "empat belas";
   "lima belas"; "enam belas"; "tujuh belas"; "delapan belas";
   "sembilan belas"].
Definition tens : list string :=
  [""; ""; "dua puluh"; "tiga puluh"; "empat puluh"; "lima puluh";
   "enam puluh"; "tujuh puluh"; "delapan puluh"; "sembilan puluh"].

(** The block [if (num > 0) { ... }] on the remainder below one hundred. *)
Definition lastBand (words : string) (num : number) : string :=
  if Num.gt num 0 then
    if Num.lt num 10 then words ++ Js.str (Num.at_ units num)
    else if Num.lt num 20 then
      words ++ Js.str (Num.at_ teens (Num.minus num 10))
    else
      words ++ Js.str (Num.at_ tens (Num.floorDiv num 10))
            ++ (if Num.gt (Num.rem num 10) 0
                then " " ++ Js.str (Num.at_ units (Num.rem num 10))
                else "")
  else words.

(** The block [if (Math.floor(num / 100) > 0) { ... }]: the words and the
    value of [num] after it. *)
Definition hundredsBand (words : string) (num : number) : string * number :=
  if Num.gt (Num.floorDiv num 100) 0 then
    (words ++ (if Num.strictEq (Num.floorDiv num 100) 1 then "seratus"
               else Js.str (Num.at_ units (Num.floorDiv num 100)) ++ " ratus")
           ++ " ",
     Num.rem num 100)
  else (words, num).

Equations? numberToWords (num : number) : string
  by wf (Num.magnitude num) Nat.lt :=
numberToWords num :=
  if Num.strictEq num 0 then "nol" else
  let thousands :=
    match sumbool_of_bool (Num.gt (Num.floorDiv num 1000) 0) with
    | left _ =>
        ("" ++ (if Num.strictEq (Num.floorDiv num 1000) 1 then "seribu"
                else numberToWords (Num.floorDiv num 1000) ++ " ribu")
            ++ " ",
         Num.rem num 1000)
    | right _ => ("", num)
    end in
  let hundreds := hundredsBand (fst thousands) (snd thousands) in
  Js.trim (lastBand (fst hundreds) (snd hundreds)).
Proof.
  destruct num as [|z]; simpl in *; [discriminate|].
  match goal with H : (0 <? _) = true |- _ => apply Z.ltb_lt in H end.
  assert (1000 <= z).
  { destruct (Z_lt_le_dec z 1000) as [Hlt|]; [|assumption].
    destruct (Z_lt_le_dec z 0).
    - assert (z / 1000 < 0) by (apply Z.div_lt_upper_bound; lia). lia.
    - rewrite Z.div_small in *; lia. }
  assert (z / 1000 < z) by (apply Z.div_lt; lia).
  lia.
Qed.

(** ** Number(string) *)

Module ToNumber.

Import Js.

Fixpoint allDigits (s : string) : bool :=
  match s with
  | EmptyString => true
  | String c s' => isDigit c && allDigits s'
  end.

Definition digitValue (c : ascii) : Z := Z.of_N (code c) - 48.

Fixpoint decimal (acc : Z) (s : string) : Z :=
  match s with
  | EmptyString => acc
  | String c s' => decimal (10 * acc + digitValue c) s'
  end.

(** The grammar of the numeric literals of a string (StrNumericLiteral). *)

Fixpoint skipDigits (s : string) : string :=
  match s with
  | EmptyString => EmptyString
  | String c s' => if isDigit c then skipDigits s' else s
  end.

Definition startsWithDigit (s : string) : bool :=
  match s with EmptyString => false | String c _ => isDigit c end.

Definition skipSign (s : string) : string :=
  match s with
  | String c s' => if Ascii.eqb c "+" || Ascii.eqb c "-" then s' else s
  | EmptyString => EmptyString
  end.

(** Nothing, or [e] or [E], an optional sign and digits. *)
Definition exponentPart (s : string) : bool :=
  match s with
  | EmptyString => true
  | String c s' =>
      (Ascii.eqb c "e" || Ascii.eqb c "E")
      && startsWithDigit (skipSign s')
      && negb (truthy (skipDigits (skipSign s')))
  end.

(** Digits with an optional fraction, or a fraction alone, then an
    optional exponent. *)
Definition unsignedDecimal (s : string) : bool :=
  match skipDigits s with
  | String "." r =>
      (startsWithDigit s || startsWithDigit r) && exponentPart (skipDigits r)
  | r => startsWithDigit s && exponentPart r
  end.

Fixpoint allOf (p : ascii -> bool) (s : string) : bool :=
  match s with
  | EmptyString => true
  | String c s' => p c && allOf p s'
  end.

Definition isHexDigit (c : ascii) : bool :=
  isDigit c || between "a" "f" c || between "A" "F" c.

(** [0x], [0o] or [0b] (in either case) and digits of that radix. *)
Definition radixLiteral (s : string) : bool :=
  match s with
  | String "0" (String x ds) =>
      truthy ds
      && (((Ascii.eqb x "x" || Ascii.eqb x "X") && allOf isHexDigit ds)
          || ((Ascii.eqb x "o" || Ascii.eqb x "O") && allOf (between "0" "7") ds)
          || ((Ascii.eqb x "b" || Ascii.eqb x "B") && allOf (between "0" "1") ds))
  | _ => false
  end.

Definition isNumericLiteral (s : string) : bool :=
  radixLiteral s
  || String.eqb (skipSign s) "Infinity"
  || unsignedDecimal (skipSign s).

(** [Number(s)]; [None] where the model does not follow the conversion. *)
Definition Number (s : string) : option number :=
  let t := trim s in
  if negb (truthy t) then Some (Num 0)
  else if allDigits t then
    if decimal 0 t <=? 2 ^ 53 then Some (Num (decimal 0 t)) else None
  else if isNumericLiteral t then None
  else Some NaN.

(** [parts.map(Number)] *)
Fixpoint mapNumber (parts : list string) : option (list number) :=
  match parts with
  | [] => Some []
  | p :: ps =>
      match Number p, mapNumber ps with
      | Some n, Some ns => Some (n :: ns)
      | _, _ => None
      end
  end.

(** An element bound by a destructuring pattern is [undefined] when the
    array is too short; every use below converts it to a number, and that
    is [NaN]. *)
Definition element (xs : list number) (i : nat) : number :=
  nth i xs NaN.

End ToNumber.

(** ** dateToWords *)

Definition months : list string :=
  [""; "Januari"; "Februari"; "Maret"; "April"; "Mei"; "Juni"; "Juli";
   "Agustus"; "September"; "Oktober"; "November"; "Desember"].

(** The body of the [try] block.  Nothing in it throws on [NaN] or on an
    integer, so the [catch] branch has no counterpart here. *)
Definition dateToWords (dateStr : string) : option string :=
  match ToNumber.mapNumber (Js.split "-" dateStr) with
  | None => None
  | Some parts =>
      let day := ToNumber.element parts 0 in
      let month := ToNumber.element parts 1 in
      let year := ToNumber.element parts 2 in
      let yearInWords := numberToWords year in
      let yearInWords :=
        if Num.ge year 2000 then "tahun " ++ yearInWords else yearInWords in
      Some (numberToWords day ++ " " ++ Js.str (Num.at_ months month)
              ++ " " ++ yearInWords)
  end.

(** ** toTitleCase *)

(** [replace(/\b\w/g, char => char.toUpperCase())]: a word character is
    upper-cased when no word character precedes it. *)
Fixpoint capitalizeWords (afterWord : bool) (s : string) : string :=
  match s with
  | EmptyString => EmptyString
  | String c s' =>
      String (if Js.isWordChar c && negb afterWord then Js.upperChar c else c)
             (capitalizeWords (Js.isWordChar c) s')
  end.

Definition toTitleCase (str : string) : string :=
  if negb (Js.truthy str) then ""
  else capitalizeWords false (Js.toLowerCase str).

(** ** formatParagraph *)

Record KtpData : Type := {
  nik : string;
  nama : string;
  tempatLahir : string;
  tanggalLahir : string;
  jenisKelamin : string;
  alamat : string;
  rt : string;
  rw : string;
  kelDesa : string;
  kecamatan : string;
  kota : string;
  statusPerkawinan : string;
  pekerjaan : string;
  kewarganegaraan : string;
  gelarDepanExpanded : option string;
  gelarBelakangExpanded : option string
}.

(** A letter of a pattern with the [i] flag matches in either case. *)
Definition sameLetter (p c : ascii) : bool :=
  Ascii.eqb (Js.upperChar c) (Js.upperChar p).

Fixpoint prefixCI (pat s : string) : bool :=
  match pat, s with
  | EmptyString, _ => true
  | String _ _, EmptyString => false
  | String p pat', String c s' => sameLetter p c && prefixCI pat' s'
  end.

(** [s.replace(/pat/ig, rep)] for a pattern of letters: the scan goes from
    left to right and resumes after each match; [skip] counts the
    characters of the current match still to pass over. *)
Fixpoint replaceAllCI (pat rep : string) (skip : nat) (s : string) : string :=
  match s with
  | EmptyString => EmptyString
  | String c s' =>
      match skip with
      | S k => replaceAllCI pat rep k s'
      | O =>
          if prefixCI pat s
          then rep ++ replaceAllCI pat rep (String.length pat - 1) s'
          else String c (replaceAllCI pat rep 0 s')
      end
  end.

Definition sentinel : string :=
  "Data tidak lengkap dari salah satu KTP. Pratinjau gambar mungkin tidak jelas.".

(** The local [gender]. *)
Definition gender (data : KtpData) : string :=
  Js.toUpperCase (jenisKelamin data).

(** The local [salutation]. *)
Definition salutation (data : KtpData) : string :=
  let maritalStatus := Js.toUpperCase (statusPerkawinan data) in
  if Js.includes (gender data) "LAKI" then "Tuan"
  else if String.eqb maritalStatus "BELUM KAWIN" then "Nona" else "Nyonya".

(** [x || ''] for an optional string. *)
Definition orEmpty (x : option string) : string :=
  match x with Some s => s | None => "" end.

(** The local [gelarDepan], as it stands when the name is assembled. *)
Definition gelarDepan (data : KtpData) : string :=
  let gelarDepan := Js.trim (orEmpty (gelarDepanExpanded data)) in
  if Js.includes (Js.toLowerCase gelarDepan) "haji"
     && Js.includes (gender data) "PEREMPUAN"
  then replaceAllCI "haji" "Hajjah" 0 gelarDepan
  else gelarDepan.

(** The local [formattedName]. *)
Definition formattedName (data : KtpData) : string :=
  let formattedName := "" in
  let formattedName :=
    if Js.truthy (gelarDepan data)
    then formattedName ++ toTitleCase (gelarDepan data) ++ " "
    else formattedName in
  let formattedName := formattedName ++ Js.toUpperCase (nama data) in
  if Js.truthy (orEmpty (gelarBelakangExpanded data))
  then formattedName ++ ", "
         ++ toTitleCase (orEmpty (gelarBelakangExpanded data))
  else formattedName.

(** The local [citizenship]. *)
Definition citizenship (data : KtpData) : string :=
  if String.eqb (Js.trim (Js.toUpperCase (kewarganegaraan data))) "WNI"
  then "Warga Negara Indonesia"
  else kewarganegaraan data.

(** The local [fullAddress]. *)
Definition fullAddress (data : KtpData) : string :=
  "bertempat tinggal di " ++ toTitleCase (kota data) ++ ", " ++ alamat data
    ++ ", Rukun Tetangga " ++ Js.padStart 3 "0" (rt data)
    ++ ", Rukun Warga " ++ Js.padStart 3 "0" (rw data)
    ++ ", Kelurahan " ++ toTitleCase (kelDesa data)
    ++ ", Kecamatan " ++ toTitleCase (kecamatan data).

(** The returned template, given the date in words. *)
Definition paragraph (data : KtpData) (dateInWords : string) : string :=
  "<strong>" ++ salutation data ++ " " ++ formattedName data ++ "</strong>"
    ++ ", dilahirkan di " ++ toTitleCase (tempatLahir data)
    ++ ", tanggal " ++ tanggalLahir data ++ " (" ++ dateInWords ++ "), "
    ++ toTitleCase (pekerjaan data) ++ ", " ++ fullAddress data
    ++ ", pemegang Kartu Tanda Penduduk dengan Nomor Induk Kependudukan "
    ++ nik data ++ ", " ++ citizenship data ++ ".".

Definition formatParagraph (data : KtpData) : option string :=
  if negb (Js.truthy (nik data)) then Some sentinel
  else
    match dateToWords (tanggalLahir data) with
    | Some dateInWords => Some (paragraph data dateInWords)
    | None => None
    end.

Definition sample : KtpData := {|
  nik := "3171234567890123";
  nama := "Siti Aminah";
  tempatLahir := "JAKARTA";
  tanggalLahir := "17-08-1945";
  jenisKelamin := "PEREMPUAN";
  alamat := "Jalan Merdeka Nomor 5";
  rt := "5";
  rw := "12";
  kelDesa := "GAMBIR";
  kecamatan := "GAMBIR";
  kota := "JAKARTA PUSAT";
  statusPerkawinan := "KAWIN";
  pekerjaan := "WIRASWASTA";
  kewarganegaraan := "WNI";
  gelarDepanExpanded := Some "Haji";
  gelarBelakangExpanded := Some "sarjana hukum"
|}.

(** Records for the examples below. *)

Definition unreadable : KtpData := {|
  nik := "";
  nama := "BUDI SANTOSO";
  tempatLahir := "BANDUNG";
  tanggalLahir := "not-a-date";
  jenisKelamin := "LAKI-LAKI";
  alamat := "";
  rt := "";
  rw := "";
  kelDesa := "";
  kecamatan := "";
  kota := "";
  statusPerkawinan := "BELUM KAWIN";
  pekerjaan := "";
  kewarganegaraan := "WNI";
  gelarDepanExpanded := None;
  gelarBelakangExpanded := Some "Sarjana Teknik"
|}.


Definition blankSuffix : KtpData := {|
  nik := "3273010101800001";
  nama := "Budi Santoso";
  tempatLahir := "BANDUNG";
  tanggalLahir := "01-01-1980";
  jenisKelamin := "LAKI-LAKI";
  alamat := "Jalan Asia Afrika Nomor 8";
  rt := "3";
  rw := "4";
  kelDesa := "BRAGA";
  kecamatan := "SUMUR BANDUNG";
  kota := "BANDUNG";
  statusPerkawinan := "KAWIN";
  pekerjaan := "KARYAWAN SWASTA";
  kewarganegaraan := "WNI";
  gelarDepanExpanded := Some " ";
  gelarBelakangExpanded := Some " "
|}.

Definition foreigner : KtpData := {|
  nik := "3171234567890123";
  nama := "John Smith";
  tempatLahir := "LONDON";
  tanggalLahir := "02-03-1975";
  jenisKelamin := "LAKI-LAKI";
  alamat := "Jalan Sudirman Nomor 10";
  rt := "12";
  rw := "1234";
  kelDesa := "SENAYAN";
  kecamatan := "KEBAYORAN BARU";
  kota := "JAKARTA SELATAN";
  statusPerkawinan := "KAWIN";
  pekerjaan := "KONSULTAN";
  kewarganegaraan := " wni ";
  gelarDepanExpanded := None;
  gelarBelakangExpanded := None
|}.

(** ** ASCII text *)

(** Every character is below 128.  On such text the case mapping, the
    white space and the length of the model are those of the code. *)
Definition isAscii (s : string) : bool :=
  ToNumber.allOf (fun c => (Js.code c <? 128)%N) s.

(** ** Strings without white space at an end *)

(** The last character, if any, is no white space. *)
Fixpoint endsClean (s : string) : bool :=
  match s with
  | EmptyString => true
  | String c EmptyString => negb (Js.isSpace c)
  | String _ s' => endsClean s'
  end.

(** The first character, if any, is no white space. *)
Definition startsClean (s : string) : bool :=
  match s with EmptyString => true | String c _ => negb (Js.isSpace c) end.

(** * The page and the upload queue

    The handlers of src/index.tsx over an explicit state: the variable
    [uploadedFiles], the properties of the elements the handlers touch, the
    file readers that have not finished and the extractions awaited.  A
    handler runs to its end before the next event is taken; what the
    browser and the extraction service decide (which files, what a reader
    gives, whether the extraction succeeds) comes with the event.
    [console.error] and the clipboard are left out. *)

Module Page.

Definition MAX_FILES : nat := 10.

(** [`${n}`] for an integer below 10^21. *)
Definition numberToString (n : Z) : string :=
  NilEmpty.string_of_int (Z.to_int n).

Record File : Type := {
  name : string;
  type : string;
  lastModified : Z
}.

Record UploadedFile : Type := {
  file : File;
  base64Image : string;
  mimeType : string
}.

Inductive element : Type :=
| dropZone | imageUpload | imagePreviewContainer | imagePreviewGrid
| processButton | resetButton | loader | errorMessage | resultContainer
| resultList.

Definition index (e : element) : nat :=
  match e with
  | dropZone => 0 | imageUpload => 1 | imagePreviewContainer => 2
  | imagePreviewGrid => 3 | processButton => 4 | resetButton => 5
  | loader => 6 | errorMessage => 7 | resultContainer => 8
  | resultList => 9
  end.

Definition sameElement (a b : element) : bool := Nat.eqb (index a) (index b).

Record page : Type := {
  (** the variable [uploadedFiles] *)
  uploadedFiles : list UploadedFile;
  (** the files whose reader has not fired [loadend] yet *)
  readers : list File;
  (** for each click still awaiting [Promise.all]: the number of calls *)
  awaited : list nat;
  (** [el.classList.contains(c)] *)
  classList : element -> string -> bool;
  (** [el.disabled] *)
  disabled : element -> bool;
  (** [el.textContent] *)
  textContent : element -> string;
  (** [imageUpload.value] *)
  value : string;
  (** the children of [imagePreviewGrid]: the image source and the file
      name put into the markup of each *)
  previews : list (string * string);
  (** the children of [resultList]: the paragraph put into the markup of
      each *)
  results : list (option string)
}.

Definition setUploadedFiles (v : list UploadedFile) (s : page) : page :=
  {| uploadedFiles := v; readers := readers s; awaited := awaited s;
     classList := classList s; disabled := disabled s;
     textContent := textContent s; value := value s;
     previews := previews s; results := results s |}.

Definition setReaders (v : list File) (s : page) : page :=
  {| uploadedFiles := uploadedFiles s; readers := v; awaited := awaited s;
     classList := classList s; disabled := disabled s;
     textContent := textContent s; value := value s;
     previews := previews s; results := results s |}.

Definition setAwaited (v : list nat) (s : page) : page :=
  {| uploadedFiles := uploadedFiles s; readers := readers s; awaited := v;
     classList := classList s; disabled := disabled s;
     textContent := textContent s; value := value s;
     previews := previews s; results := results s |}.

Definition setClassList (v : element -> string -> bool) (s : page) : page :=
  {| uploadedFiles := uploadedFiles s; readers := readers s;
     awaited := awaited s; classList := v; disabled := disabled s;
     textContent := textContent s; value := value s;
     previews := previews s; results := results s |}.

Definition setDisabled (el : element) (v : bool) (s : page) : page :=
  {| uploadedFiles := uploadedFiles s; readers := readers s;
     awaited := awaited s; classList := classList s;
     disabled := fun e => if sameElement e el then v else disabled s e;
     textContent := textContent s; value := value s;
     previews := previews s; results := results s |}.

Definition setTextContent (el : element) (v : string) (s : page) : page :=
  {| uploadedFiles := uploadedFiles s; readers := readers s;
     awaited := awaited s; classList := classList s; disabled := disabled s;
     textContent := fun e => if sameElement e el then v else textContent s e;
     value := value s; previews := previews s; results := results s |}.

Definition setValue (v : string) (s : page) : page :=
  {| uploadedFiles := uploadedFiles s; readers := readers s;
     awaited := awaited s; classList := classList s; disabled := disabled s;
     textContent := textContent s; value := v;
     previews := previews s; results := results s |}.

Definition setPreviews (v : list (string * string)) (s : page) : page :=
  {| uploadedFiles := uploadedFiles s; readers := readers s;
     awaited := awaited s; classList := classList s; disabled := disabled s;
     textContent := textContent s; value := value s;
     previews := v; results := results s |}.

Definition setResults (v : list (option string)) (s : page) : page :=
  {| uploadedFiles := uploadedFiles s; readers := readers s;
     awaited := awaited s; classList := classList s; disabled := disabled s;
     textContent := textContent s; value := value s;
     previews := previews s; results := v |}.

(** [el.classList.add(c)] and [el.classList.remove(c)] *)
Definition setClass (el : element) (c : string) (v : bool) (s : page) : page :=
  setClassList
    (fun e k => if sameElement e el && String.eqb k c then v
                else classList s e k) s.
Definition classListAdd (el : element) (c : string) : page -> page :=
  setClass el c true.
Definition classListRemove (el : element) (c : string) : page -> page :=
  setClass el c false.

(** Statements of a handler, in the order of the source. *)
Definition andThen (f g : page -> page) (s : page) : page := g (f s).
Local Infix ";;" := andThen (at level 61, left associativity).

Definition resetApp : page -> page :=
  setUploadedFiles []
  ;; setValue ""
  ;; setPreviews []
  ;; classListAdd imagePreviewContainer "hidden"
  ;; setResults []
  ;; classListAdd resultContainer "hidden"
  ;; classListAdd errorMessage "hidden"
  ;; setDisabled processButton true
  ;; classListAdd resetButton "hidden".

Definition setLoadingState (isLoading : bool) : page -> page :=
  if isLoading then
    classListRemove loader "hidden"
    ;; setDisabled processButton true
    ;; setDisabled resetButton true
    ;; setTextContent processButton "Memproses..."
    ;; classListAdd resultContainer "hidden"
    ;; classListAdd errorMessage "hidden"
  else
    classListAdd loader "hidden"
    ;; setDisabled processButton false
    ;; setDisabled resetButton false
    ;; setTextContent processButton "GASKEN".

Definition showError (message : string) : page -> page :=
  setTextContent errorMessage message
  ;; classListRemove errorMessage "hidden"
  ;; classListAdd resultContainer "hidden".

(** The loop of [displayResults].  A result is [Some] record, or [None]
    for a parsed value on which formatParagraph throws (a field it calls a
    method of is missing or is no string); [inl] is the page when that
    happens. *)
Fixpoint appendResults (rs : list (option KtpData)) (s : page)
  : page + page :=
  match rs with
  | [] => inr s
  | None :: _ => inl s
  | Some ktpData :: rest =>
      appendResults rest
        (setResults (results s ++ [formatParagraph ktpData]) s)
  end.

(** [displayResults]; [inl] when it throws. *)
Definition displayResults (rs : list (option KtpData)) (s : page)
  : page + page :=
  match appendResults rs (setResults [] s) with
  | inl s' => inl s'
  | inr s' =>
      inr (if (0 <? List.length rs)%nat
           then (classListRemove resultContainer "hidden"
                 ;; classListAdd errorMessage "hidden") s'
           else s')
  end.

Definition createFileList (files : list File) : list File := files.

(** What [reader.onloadend] cannot go on with. *)
Inductive failure : Type :=
| InvalidResult      (** 'Invalid file reader result' *)
| NoMediaType        (** [split] called on undefined: a TypeError *)
| CouldNotParse.     (** 'Could not parse Data URL' *)

(** The [try] block of [reader.onloadend] up to the [push]: the media type
    and the payload of the data URL, or what is thrown. *)
Definition dataUrlParts (result : option string)
  : failure + (string * string) :=
  match result with
  | None => inl InvalidResult
  | Some result =>
      if negb (Js.truthy result) || negb (Js.includes result ",")
      then inl InvalidResult
      else
        let parts := Js.split "," result in
        match nth_error (Js.split ":" (nth 0 parts "")) 1 with
        | None => inl NoMediaType
        | Some afterColon =>
            let mimeType := nth 0 (Js.split ";" afterColon) "" in
            let base64Image := nth_error parts 1 in
            if negb (Js.truthy mimeType)
               || negb (Js.truthy (orEmpty base64Image))
            then inl CouldNotParse
            else inr (mimeType, orEmpty base64Image)
        end
  end.

(** [reader.onloadend] of the reader of [file], [result] being
    [reader.result]. *)
Definition onloadend (file : File) (result : option string) : page -> page :=
  match dataUrlParts result with
  | inr (mimeType, base64Image) =>
      (fun s =>
         setUploadedFiles
           (uploadedFiles s
              ++ [{| file := file; base64Image := base64Image;
                     mimeType := mimeType |}]) s)
      ;; (fun s =>
            setPreviews (previews s ++ [(orEmpty result, name file)]) s)
  | inl _ => showError ("Gagal memproses pratinjau untuk: " ++ name file)
  end.

(** [reader.onerror] *)
Definition onerror (file : File) : page -> page :=
  showError ("Gagal membaca file: " ++ name file).

Definition addFilesToQueue (files : list File) (s : page) : page :=
  if (MAX_FILES <? List.length (uploadedFiles s) + List.length files)%nat then
    (showError ("Total file tidak boleh melebihi "
                  ++ numberToString (Z.of_nat MAX_FILES)
                  ++ ". Saat ini ada "
                  ++ numberToString (Z.of_nat (List.length (uploadedFiles s)))
                  ++ " file.")
     ;; setValue "") s
  else
    ((fun s => setReaders (readers s ++ files) s)
     ;; classListRemove imagePreviewContainer "hidden"
     ;; setDisabled processButton false
     ;; classListRemove resetButton "hidden") s.

(** [files] is [None] for null. *)
Definition handleNewFileSelection (files : option (list File)) (s : page)
  : page :=
  match files with
  | None | Some [] => s
  | Some files => addFilesToQueue files (resetApp s)
  end.

(** An item of the clipboard: its type and what [getAsFile] returns. *)
Record item : Type := {
  itemType : string;
  getAsFile : option File
}.

(** The loop of the paste listener; each item comes with the value
    [Date.now()] returns at its turn. *)
Fixpoint pastedImages (items : list (item * Z)) : list File :=
  match items with
  | [] => []
  | (it, now) :: rest =>
      if Js.includes (itemType it) "image" then
        match getAsFile it with
        | Some pastedFile =>
            {| name := "pasted-image-" ++ numberToString now ++ "."
                         ++ Js.str (nth_error (Js.split "/" (type pastedFile)) 1);
               type := type pastedFile;
               lastModified := lastModified pastedFile |}
              :: pastedImages rest
        | None => pastedImages rest
        end
      else pastedImages rest
  end.

Inductive event : Type :=
| DragOver
| DragLeave
| Drop (files : option (list File))
| Change (files : option (list File))
| Paste (items : option (list (item * Z)))
| LoadEnd (reader : nat) (result : option string)
| LoadError (reader : nat)
| ProcessClick
| ProcessSettled (click : nat) (outcome : option (list (option KtpData)))
| ResetClick.

Fixpoint without {A : Type} (i : nat) (xs : list A) : list A :=
  match xs, i with
  | [], _ => []
  | _ :: xs', O => xs'
  | x :: xs', S i' => x :: without i' xs'
  end.

(** The listener of an event; [None] when the event cannot happen in this
    state (no such reader, no such click awaited, a result list of another
    length than the calls).  The outcome of an extraction is [None] when
    [Promise.all] rejects. *)
Definition handle (s : page) (e : event) : option page :=
  match e with
  | DragOver => Some (classListAdd dropZone "drop-zone-active" s)
  | DragLeave => Some (classListRemove dropZone "drop-zone-active" s)
  | Drop files =>
      Some ((classListRemove dropZone "drop-zone-active"
             ;; match files with
                | Some files => handleNewFileSelection (Some files)
                | None => fun s => s
                end) s)
  | Change files =>
      Some (match files with
            | Some files => handleNewFileSelection (Some files) s
            | None => s
            end)
  | Paste items =>
      match items with
      | None => Some s
      | Some items =>
          let imageFiles := pastedImages items in
          if (0 <? List.length imageFiles)%nat
          then Some (handleNewFileSelection
                       (Some (createFileList imageFiles)) s)
          else Some s
      end
  | LoadEnd i result =>
      match nth_error (readers s) i with
      | Some file =>
          Some (onloadend file result (setReaders (without i (readers s)) s))
      | None => None
      end
  | LoadError i =>
      match nth_error (readers s) i with
      | Some file => Some (onerror file s)
      | None => None
      end
  | ProcessClick =>
      if (List.length (uploadedFiles s) =? 0)%nat
      then Some (showError "Silakan pilih gambar terlebih dahulu." s)
      else Some ((setLoadingState true
                  ;; (fun s => setAwaited
                                 (awaited s ++ [List.length (uploadedFiles s)]) s))
                   s)
  | ProcessSettled i outcome =>
      match nth_error (awaited s) i with
      | Some calls =>
          let s := setAwaited (without i (awaited s)) s in
          match outcome with
          | Some rs =>
              if (List.length rs =? calls)%nat
              then
                match displayResults rs s with
                | inr s' => Some (setLoadingState false s')
                | inl s' =>
                    Some ((showError
                             "Gagal mengekstrak informasi. Pastikan gambar KTP jelas dan coba lagi."
                           ;; setLoadingState false) s')
                end
              else None
          | None =>
              Some ((showError
                       "Gagal mengekstrak informasi. Pastikan gambar KTP jelas dan coba lagi."
                     ;; setLoadingState false) s)
          end
      | None => None
      end
  | ResetClick => Some (resetApp s)
  end.

(** The events of a list, one after the other. *)
Fixpoint run (s : page) (es : list event) : option page :=
  match es with
  | [] => Some s
  | e :: es' =>
      match handle s e with
      | Some s' => run s' es'
      | None => None
      end
  end.

(** A page on which only [resetApp] has run. *)
Definition blank : page :=
  resetApp
    {| uploadedFiles := []; readers := []; awaited := [];
       classList := fun _ _ => false; disabled := fun _ => false;
       textContent := fun _ => ""; value := "";
       previews := []; results := [] |}.

(** The character [c] does not occur in [s]. *)
Definition lacks (c : ascii) (s : string) : bool :=
  ToNumber.allOf (fun x => negb (Ascii.eqb x c)) s.

(** The error message and the results are not shown together. *)
Definition oneMessage (s : page) : Prop :=
  classList s errorMessage "hidden" = true
  \/ classList s resultContainer "hidden" = true.

(** [imagePreviewGrid] has one child for each queued file, and each queued
    file has a media type without semicolon and a payload without comma,
    neither empty. *)
Definition queueShown (s : page) : Prop :=
  List.length (previews s) = List.length (uploadedFiles s)
  /\ Forall (fun u => mimeType u <> "" /\ base64Image u <> ""
                      /\ lacks ";" (mimeType u) = true
                      /\ lacks "," (base64Image u) = true)
            (uploadedFiles s).

(** The queue and the files being read stay within the limit. *)
Definition withinLimit (s : page) : Prop :=
  (List.length (uploadedFiles s) + List.length (readers s) <= MAX_FILES)%nat.

(** A selection of files that reaches [addFilesToQueue]. *)
Definition selects (e : event) : bool :=
  match e with
  | Drop (Some (_ :: _)) | Change (Some (_ :: _)) => true
  | Paste (Some items) => (0 <? List.length (pastedImages items))%nat
  | _ => false
  end.

(** Along the events, a selection of files comes only when no reader is at
    work. *)
Fixpoint calm (s : page) (es : list event) : bool :=
  match es with
  | [] => true
  | e :: es' =>
      (if selects e
       then match readers s with [] => true | _ :: _ => false end
       else true)
      && match handle s e with
         | Some s' => calm s' es'
         | None => true
         end
  end.

(** One file is dropped, ten more before the first is read, and then the
    eleven readers end. *)
Definition photo : File :=
  {| name := "ktp.png"; type := "image/png"; lastModified := 0 |}.

Definition overlapping : list event :=
  Drop (Some [photo]) :: Drop (Some (repeat photo 10))
    :: repeat (LoadEnd 0 (Some "data:image/png;base64,iVBORw0KGgo=")) 11.


End Page.

(** * The specification's words *)

(** ** The bands of numberToWords *)

Module Spec.

Definition unitWord (d : Z) : string :=
  match d with
  | 1 => "satu" | 2 => "dua" | 3 => "tiga" | 4 => "empat" | 5 => "lima"
  | 6 => "enam" | 7 => "tujuh" | 8 => "delapan" | 9 => "sembilan"
  | _ => ""
  end.

Definition teenWord (r : Z) : string :=
  match r with
  | 10 => "sepuluh" | 11 => "sebelas" | 12 => "dua belas"
  | 13 => "tiga belas" | 14 => "empat belas" | 15 => "lima belas"
  | 16 => "enam belas" | 17 => "tujuh belas" | 18 => "delapan belas"
  | 19 => "sembilan belas"
  | _ => ""
  end.

(** Thousands: exactly one thousand is "seribu", else the count in words
    and "ribu"; nothing for a count of zero. *)
Definition thousandsSegment (spell : Z -> string) (count : Z) : string :=
  if count =? 0 then ""
  else if count =? 1 then "seribu "
  else spell count ++ " ribu ".

(** Hundreds: exactly one hundred is "seratus", else the unit word and
    "ratus"; nothing for a count of zero. *)
Definition hundredsSegment (count : Z) : string :=
  if count =? 0 then ""
  else if count =? 1 then "seratus "
  else unitWord count ++ " ratus ".

(** The remainder below one hundred: a unit word for 1-9, a teen word for
    10-19, else the tens word ("puluh" after the unit word of the tens
    digit) and the unit word, left out for a multiple of ten. *)
Definition remainderSegment (r : Z) : string :=
  if r =? 0 then ""
  else if r <? 10 then unitWord r
  else if r <? 20 then teenWord r
  else unitWord (r / 10) ++ " puluh"
         ++ (if r mod 10 =? 0 then "" else " " ++ unitWord (r mod 10)).

End Spec.

(** ** The month table, index 1 to 12 *)

Module DateSpec.

(** The 12-entry month table of the specification, index 1 to 12. *)
Definition monthName (m : Z) : string :=
  match m with
  | 1 => "Januari" | 2 => "Februari" | 3 => "Maret" | 4 => "April"
  | 5 => "Mei" | 6 => "Juni" | 7 => "Juli" | 8 => "Agustus"
  | 9 => "September" | 10 => "Oktober" | 11 => "November"
  | 12 => "Desember"
  | _ => ""
  end.

End DateSpec.

(** ** Matching without regard to case *)

(** [s] holds [pat] as a substring, the case of the letters aside. *)
Definition containsCI (s pat : string) : Prop :=
  exists pre mid post : string,
    s = pre ++ mid ++ post /\ Js.toLowerCase mid = Js.toLowerCase pat.

(** [s] and [t] are equal, the case of the letters aside. *)
Definition equalsCI (s t : string) : Prop :=
  Js.toLowerCase s = Js.toLowerCase t.

(** * Properties *)

(** ** The recursion equation of numberToWords *)

Lemma numberToWords_eq (num : number) :
  numberToWords num =
  if Num.strictEq num 0 then "nol" else
  let thousands :=
    if Num.gt (Num.floorDiv num 1000) 0 then
      ((if Num.strictEq (Num.floorDiv num 1000) 1 then "seribu"
        else numberToWords (Num.floorDiv num 1000) ++ " ribu") ++ " ",
       Num.rem num 1000)
    else ("", num) in
  let hundreds := hundredsBand (fst thousands) (snd thousands) in
  Js.trim (lastBand (fst hundreds) (snd hundreds)).
Proof.
  rewrite numberToWords_equation_1.
  destruct (Num.strictEq num 0); [reflexivity|].
  destruct (sumbool_of_bool (Num.gt (Num.floorDiv num 1000) 0)) as [e|e];
    rewrite e; reflexivity.
Qed.

(** ** Strings: the lemmas used below *)

Lemma app_nil_r (s : string) : s ++ "" = s.
Proof. induction s as [|c s IH]; simpl; [|rewrite IH]; reflexivity. Qed.

Lemma app_assoc (a b c : string) : (a ++ b) ++ c = a ++ b ++ c.
Proof. induction a as [|x a IH]; simpl; [|rewrite IH]; reflexivity. Qed.

(** A property checked on every integer of a range by evaluation. *)
Lemma forall_range (P : Z -> bool) (lo n : nat) :
  forallb P (map Z.of_nat (seq lo n)) = true ->
  forall z, Z.of_nat lo <= z < Z.of_nat (lo + n) -> P z = true.
Proof.
  intros H z Hz. rewrite forallb_forall in H. apply H.
  apply in_map_iff. exists (Z.to_nat z). split; [lia|].
  apply in_seq. lia.
Qed.

Lemma lastBand_words (words : string) (num : number) :
  lastBand words num = words ++ lastBand "" num.
Proof.
  unfold lastBand.
  repeat match goal with |- context [if ?b then _ else _] => destruct b end;
    simpl; rewrite ?app_nil_r; reflexivity.
Qed.

Lemma hundredsBand_words (words : string) (num : number) :
  hundredsBand words num
  = (words ++ fst (hundredsBand "" num), snd (hundredsBand "" num)).
Proof.
  unfold hundredsBand.
  destruct (Num.gt (Num.floorDiv num 100) 0); simpl;
    rewrite ?app_nil_r; reflexivity.
Qed.

Lemma lastBand_spec (r : Z) :
  0 <= r < 100 -> lastBand "" (Num r) = Spec.remainderSegment r.
Proof.
  intros Hr. apply String.eqb_eq.
  apply (forall_range
           (fun z => String.eqb (lastBand "" (Num z)) (Spec.remainderSegment z))
           0 100); [vm_compute; reflexivity | lia].
Qed.

Lemma hundredsBand_spec (r : Z) :
  0 <= r < 1000 ->
  hundredsBand "" (Num r) = (Spec.hundredsSegment (r / 100), Num (r mod 100)).
Proof.
  intros Hr.
  assert (H : (let '(w, n) := hundredsBand "" (Num r) in
               String.eqb w (Spec.hundredsSegment (r / 100))
               && Num.strictEq n (r mod 100)) = true).
  { apply (forall_range
             (fun z => let '(w, n) := hundredsBand "" (Num z) in
                       String.eqb w (Spec.hundredsSegment (z / 100))
                       && Num.strictEq n (z mod 100))
             0 1000); [vm_compute; reflexivity | lia]. }
  destruct (hundredsBand "" (Num r)) as [w [|n]];
    apply andb_true_iff in H; destruct H as [Hw Hn];
    [discriminate|].
  apply String.eqb_eq in Hw. simpl in Hn. apply Z.eqb_eq in Hn.
  congruence.
Qed.

(** numberToWords on a positive integer: the three segments, trimmed. *)
Lemma numberToWords_segments (n : Z) :
  0 < n ->
  numberToWords (Num n)
  = Js.trim (Spec.thousandsSegment (fun t => numberToWords (Num t)) (n / 1000)
               ++ Spec.hundredsSegment (n mod 1000 / 100)
               ++ Spec.remainderSegment (n mod 100)).
Proof.
  intros Hn. rewrite numberToWords_eq.
  assert (Hmod : (n mod 1000) mod 100 = n mod 100).
  { apply Z.mod_mod_divide. exists 10. reflexivity. }
  assert (H0 : Num.strictEq (Num n) 0 = false) by (apply Z.eqb_neq; lia).
  rewrite H0. cbv zeta.
  assert (Hband : forall w r, 0 <= r < 1000 -> r mod 100 = n mod 100 ->
            r / 100 = n mod 1000 / 100 ->
            Js.trim (lastBand (fst (hundredsBand w (Num r)))
                              (snd (hundredsBand w (Num r))))
            = Js.trim (w ++ Spec.hundredsSegment (n mod 1000 / 100)
                         ++ Spec.remainderSegment (n mod 100))).
  { intros w r Hr Hr1 Hr2.
    rewrite hundredsBand_words, hundredsBand_spec by assumption. simpl.
    rewrite lastBand_words, lastBand_spec
      by (apply Z.mod_pos_bound; lia).
    rewrite Hr1, Hr2, app_assoc. reflexivity. }
  unfold Num.floorDiv, Num.gt, Num.rem, Spec.thousandsSegment.
  destruct (Z.ltb_spec 0 (n / 1000)) as [Hk|Hk].
  - assert (Hk0 : (n / 1000 =? 0) = false) by (apply Z.eqb_neq; lia).
    rewrite Hk0. cbn [fst snd].
    rewrite Z.rem_mod_nonneg by lia.
    rewrite Hband; [|apply Z.mod_pos_bound; lia|exact Hmod|reflexivity].
    unfold Num.strictEq.
    destruct (n / 1000 =? 1); [reflexivity|].
    rewrite !app_assoc. reflexivity.
  - assert (Hd : n / 1000 = 0).
    { assert (0 <= n / 1000) by (apply Z.div_pos; lia). lia. }
    assert (Hlt : n < 1000).
    { destruct (Z_lt_le_dec n 1000) as [|Hge]; [assumption|].
      assert (1 <= n / 1000) by (apply Z.div_le_lower_bound; lia). lia. }
    rewrite Hd. cbn [fst snd Z.eqb].
    rewrite Hband; [reflexivity|lia| |].
    + rewrite (Z.mod_small n 1000) in Hmod by lia. reflexivity.
    + rewrite (Z.mod_small n 1000) by lia. reflexivity.
Qed.

(** C3. numberToWords decomposes a positive number (up to 2^53, where the
    arithmetic of the code is exact) into the thousands segment ("seribu"
    for exactly one thousand, else the count in words and "ribu"), the
    hundreds segment ("seratus" for exactly one hundred) and the remainder
    below one hundred (unit words, teen words for 10-19, the unit word left
    out for a multiple of ten); and it gives "nol" for 0, "lima belas" for
    15, "seratus" for 100, "seribu" for 1000 and "dua ribu dua puluh empat"
    for 2024. *)
Theorem numberToWords_decomposition :
  (forall n : Z, 0 < n <= 2 ^ 53 ->
     numberToWords (Num n)
     = Js.trim (Spec.thousandsSegment (fun t => numberToWords (Num t))
                                      (n / 1000)
                  ++ Spec.hundredsSegment (n mod 1000 / 100)
                  ++ Spec.remainderSegment (n mod 100)))
  /\ numberToWords (Num 0) = "nol"
  /\ numberToWords (Num 15) = "lima belas"
  /\ numberToWords (Num 100) = "seratus"
  /\ numberToWords (Num 1000) = "seribu"
  /\ numberToWords (Num 2024) = "dua ribu dua puluh empat".
Proof.
  split; [intros n Hn; apply numberToWords_segments; lia|].
  repeat split; reflexivity.
Qed.

Lemma numberToWords_decomposition_witness :
  numberToWords (Num 21945)
  = Js.trim (Spec.thousandsSegment (fun t => numberToWords (Num t))
                                   (21945 / 1000)
               ++ Spec.hundredsSegment (21945 mod 1000 / 100)
               ++ Spec.remainderSegment (21945 mod 100)).
Proof.
  apply (proj1 numberToWords_decomposition 21945).
  vm_compute. split; [reflexivity|discriminate].
Defined.

(** C9. On every strictly negative integer numberToWords returns the empty
    string: no band test holds, so no word is appended. *)
Theorem numberToWords_negative (n : Z) :
  n < 0 -> numberToWords (Num n) = "".
Proof.
  intros Hn. rewrite numberToWords_eq.
  assert (H0 : Num.strictEq (Num n) 0 = false) by (apply Z.eqb_neq; lia).
  assert (H1 : Num.gt (Num.floorDiv (Num n) 1000) 0 = false).
  { apply Z.ltb_ge.
    assert (n / 1000 < 0) by (apply Z.div_lt_upper_bound; lia). lia. }
  assert (H2 : Num.gt (Num.floorDiv (Num n) 100) 0 = false).
  { apply Z.ltb_ge.
    assert (n / 100 < 0) by (apply Z.div_lt_upper_bound; lia). lia. }
  assert (H3 : Num.gt (Num n) 0 = false) by (apply Z.ltb_ge; lia).
  rewrite H0, H1. cbv zeta. cbn [fst snd].
  unfold hundredsBand. rewrite H2. cbn [fst snd].
  unfold lastBand. rewrite H3. reflexivity.
Qed.

Lemma numberToWords_negative_witness :
  -5 < 0 /\ numberToWords (Num (-5)) = "".
Proof.
  split; [lia|]. apply (numberToWords_negative (-5)). lia.
Defined.

(** ** Number on digit strings *)

Section Digits.

Import Js ToNumber.

Ltac each_char c := destruct c as [[] [] [] [] [] [] [] []].

Lemma digit_not_space (c : ascii) : isDigit c = true -> isSpace c = false.
Proof. each_char c; vm_compute; congruence. Qed.

Lemma digit_not_dash (c : ascii) :
  isDigit c = true -> Ascii.eqb c "-" = false.
Proof. each_char c; vm_compute; congruence. Qed.

Lemma digitValue_range (c : ascii) :
  isDigit c = true -> 0 <= digitValue c <= 9.
Proof. each_char c; vm_compute; intuition congruence. Qed.

Lemma trimEnd_digits (s : string) : allDigits s = true -> trimEnd s = s.
Proof.
  induction s as [|c s IH]; simpl; [reflexivity|].
  intros H. apply andb_true_iff in H. destruct H as [Hc Hs].
  rewrite (digit_not_space c Hc), (IH Hs). reflexivity.
Qed.

Lemma trim_digits (s : string) : allDigits s = true -> trim s = s.
Proof.
  intros H. unfold trim.
  assert (Hs : trimStart s = s).
  { destruct s as [|c s]; simpl in *; [reflexivity|].
    apply andb_true_iff in H. destruct H as [Hc _].
    rewrite (digit_not_space c Hc). reflexivity. }
  rewrite Hs. apply trimEnd_digits. assumption.
Qed.

Lemma decimal_bounds (s : string) :
  allDigits s = true ->
  forall acc, 0 <= acc ->
    0 <= decimal acc s < (acc + 1) * 10 ^ Z.of_nat (String.length s).
Proof.
  induction s as [|c s IH]; intros H acc Hacc.
  - simpl. lia.
  - cbn [allDigits] in H. apply andb_true_iff in H. destruct H as [Hc Hs].
    pose proof (digitValue_range c Hc) as Hv.
    cbn [decimal String.length]. rewrite Nat2Z.inj_succ, Z.pow_succ_r by lia.
    specialize (IH Hs (10 * acc + digitValue c) ltac:(lia)).
    assert (0 < 10 ^ Z.of_nat (String.length s))
      by (apply Z.pow_pos_nonneg; lia).
    nia.
Qed.

(** A string of one to fifteen digits converts to its decimal value. *)
Lemma Number_digits (s : string) :
  allDigits s = true -> (1 <= String.length s <= 15)%nat ->
  Number s = Some (Num (decimal 0 s)).
Proof.
  intros H Hlen. unfold Number. rewrite (trim_digits s H), H.
  destruct s as [|c s]; [simpl in Hlen; lia|]. cbn [truthy negb].
  pose proof (decimal_bounds _ H 0 ltac:(lia)) as Hb.
  assert (10 ^ Z.of_nat (String.length (String c s)) <= 10 ^ 15)
    by (apply Z.pow_le_mono_r; lia).
  assert (Hle : (decimal 0 (String c s) <=? 2 ^ 53) = true).
  { apply Z.leb_le.
    change (2 ^ 53) with 9007199254740992.
    change (10 ^ 15) with 1000000000000000 in *. lia. }
  rewrite Hle. reflexivity.
Qed.

Lemma split_digits_last (s : string) :
  allDigits s = true -> split "-" s = [s].
Proof.
  induction s as [|c s IH]; simpl; [reflexivity|].
  intros H. apply andb_true_iff in H. destruct H as [Hc Hs].
  rewrite (digit_not_dash c Hc), (IH Hs). reflexivity.
Qed.

Lemma split_digits_dash (s rest : string) :
  allDigits s = true ->
  split "-" (s ++ String "-" rest) = s :: split "-" rest.
Proof.
  induction s as [|c s IH]; simpl; [reflexivity|].
  intros H. apply andb_true_iff in H. destruct H as [Hc Hs].
  rewrite (digit_not_dash c Hc), (IH Hs). reflexivity.
Qed.

End Digits.

(** ** dateToWords on digits *)

Lemma months_named (m : Z) :
  1 <= m <= 12 -> Num.at_ months (Num m) = Some (DateSpec.monthName m).
Proof.
  intros Hm.
  assert (H : (match Num.at_ months (Num m) with
               | Some name => String.eqb name (DateSpec.monthName m)
               | None => false
               end) = true).
  { apply (forall_range
             (fun z => match Num.at_ months (Num z) with
                       | Some name => String.eqb name (DateSpec.monthName z)
                       | None => false
                       end) 1 12); [vm_compute; reflexivity | lia]. }
  destruct (Num.at_ months (Num m)); [|discriminate].
  apply String.eqb_eq in H. congruence.
Qed.

Lemma dateToWords_digits (dd mm yyyy : string) :
  ToNumber.allDigits dd = true -> (1 <= String.length dd <= 15)%nat ->
  ToNumber.allDigits mm = true -> (1 <= String.length mm <= 15)%nat ->
  ToNumber.allDigits yyyy = true -> (1 <= String.length yyyy <= 15)%nat ->
  dateToWords (dd ++ "-" ++ mm ++ "-" ++ yyyy)
  = Some (numberToWords (Num (ToNumber.decimal 0 dd)) ++ " "
            ++ Js.str (Num.at_ months (Num (ToNumber.decimal 0 mm))) ++ " "
            ++ (if 2000 <=? ToNumber.decimal 0 yyyy then "tahun " else "")
            ++ numberToWords (Num (ToNumber.decimal 0 yyyy))).
Proof.
  intros Hd Ld Hm Lm Hy Ly. unfold dateToWords.
  change (dd ++ "-" ++ mm ++ "-" ++ yyyy)
    with (dd ++ String "-" (mm ++ String "-" yyyy)).
  rewrite (split_digits_dash dd _ Hd), (split_digits_dash mm _ Hm),
    (split_digits_last yyyy Hy).
  cbn [ToNumber.mapNumber].
  rewrite (Number_digits dd Hd Ld), (Number_digits mm Hm Lm),
    (Number_digits yyyy Hy Ly).
  cbn [ToNumber.element nth Num.ge].
  destruct (2000 <=? ToNumber.decimal 0 yyyy); reflexivity.
Qed.

(** C7. On a well-formed DD-MM-YYYY string whose month is between 1 and 12
    dateToWords gives the day in words, the month name of the 12-entry
    table and the year in words, the year phrase starting with "tahun "
    exactly when the year is at least 2000; on "17-08-1945" and on
    "01-01-2000" it gives the two strings of the specification. *)
Theorem dateToWords_wellformed :
  (forall dd mm yyyy : string,
     ToNumber.allDigits dd = true -> String.length dd = 2%nat ->
     ToNumber.allDigits mm = true -> String.length mm = 2%nat ->
     ToNumber.allDigits yyyy = true -> String.length yyyy = 4%nat ->
     1 <= ToNumber.decimal 0 mm <= 12 ->
     dateToWords (dd ++ "-" ++ mm ++ "-" ++ yyyy)
     = Some (numberToWords (Num (ToNumber.decimal 0 dd)) ++ " "
               ++ DateSpec.monthName (ToNumber.decimal 0 mm) ++ " "
               ++ (if 2000 <=? ToNumber.decimal 0 yyyy then "tahun " else "")
               ++ numberToWords (Num (ToNumber.decimal 0 yyyy))))
  /\ dateToWords "17-08-1945"
     = Some "tujuh belas Agustus seribu sembilan ratus empat puluh lima"
  /\ dateToWords "01-01-2000" = Some "satu Januari tahun dua ribu".
Proof.
  split; [|split; reflexivity].
  intros dd mm yyyy Hd Ld Hm Lm Hy Ly Hrange.
  rewrite dateToWords_digits by (assumption || lia).
  rewrite (months_named _ Hrange). reflexivity.
Qed.

Lemma dateToWords_wellformed_witness :
  dateToWords ("28" ++ "-" ++ "10" ++ "-" ++ "1928")
  = Some (numberToWords (Num (ToNumber.decimal 0 "28")) ++ " "
            ++ DateSpec.monthName (ToNumber.decimal 0 "10") ++ " "
            ++ (if 2000 <=? ToNumber.decimal 0 "1928" then "tahun " else "")
            ++ numberToWords (Num (ToNumber.decimal 0 "1928"))).
Proof.
  apply (proj1 dateToWords_wellformed "28" "10" "1928");
    try reflexivity.
  vm_compute. split; discriminate.
Defined.

(** C1 (as the code behaves). On "not-a-date" no component converts to a
    number, yet dateToWords does not return the empty string: the month
    lookup gives undefined, which the template prints. *)
Theorem dateToWords_not_a_date :
  ToNumber.mapNumber (Js.split "-" "not-a-date") = Some [NaN; NaN; NaN]
  /\ dateToWords "not-a-date" = Some " undefined ".
Proof. split; reflexivity. Qed.

(** Whatever the input, the string dateToWords returns is not empty. *)
Lemma dateToWords_not_empty (dateStr out : string) :
  dateToWords dateStr = Some out -> out <> "".
Proof.
  unfold dateToWords.
  destruct (ToNumber.mapNumber (Js.split "-" dateStr)); [|discriminate].
  intros H. injection H as <-.
  destruct (numberToWords (ToNumber.element l 0)); discriminate.
Qed.

(** C10. dateToWords does not check the range of the month: "01-13-1999"
    splits into three numeric components, the month 13 indexes past the
    end of the month table, and the result is a non-empty string that
    holds the printed undefined. *)
Theorem dateToWords_month_out_of_range :
  exists (dateStr : string) (day month year : Z) (out : string),
    dateStr = "01-13-1999"
    /\ ToNumber.mapNumber (Js.split "-" dateStr)
       = Some [Num day; Num month; Num year]
    /\ ~ (1 <= month <= 12)
    /\ Z.of_nat (List.length months) <= month
    /\ Num.at_ months (Num month) = None
    /\ dateToWords dateStr = Some out
    /\ out = "satu undefined seribu sembilan ratus sembilan puluh sembilan"
    /\ out <> ""
    /\ Js.includes out (Js.str (Num.at_ months (Num month))) = true.
Proof.
  exists "01-13-1999", 1, 13, 1999,
    "satu undefined seribu sembilan ratus sembilan puluh sembilan".
  repeat split; try reflexivity; try (simpl; lia); try discriminate.
Qed.

(** ** Substrings and case *)

Section Case.

Import Js.

Ltac each_char c := destruct c as [[] [] [] [] [] [] [] []].

Lemma lower_upper (c : ascii) : lowerChar (upperChar c) = lowerChar c.
Proof. each_char c; reflexivity. Qed.

Lemma upper_lower (c : ascii) : upperChar (lowerChar c) = upperChar c.
Proof. each_char c; reflexivity. Qed.

Lemma upperChar_eq_iff (c p : ascii) :
  upperChar c = upperChar p <-> lowerChar c = lowerChar p.
Proof.
  split; intros H.
  - rewrite <- (lower_upper c), H. apply lower_upper.
  - rewrite <- (upper_lower c), H. apply upper_lower.
Qed.

Lemma equalsCI_upper (s t : string) :
  equalsCI s t <-> toUpperCase s = toUpperCase t.
Proof.
  unfold equalsCI, toLowerCase, toUpperCase.
  revert t. induction s as [|c s IH]; intros [|d t]; simpl;
    try (split; (reflexivity || discriminate)).
  split; intros H; injection H as Hc Hs; f_equal;
    solve [apply upperChar_eq_iff; assumption | apply IH; assumption].
Qed.

Lemma mapChars_app (f : ascii -> ascii) (a b : string) :
  mapChars f (a ++ b) = mapChars f a ++ mapChars f b.
Proof. induction a as [|c a IH]; simpl; [|rewrite IH]; reflexivity. Qed.

Lemma mapChars_app_inv (f : ascii -> ascii) (a b s : string) :
  mapChars f s = a ++ b ->
  exists s1 s2, s = s1 ++ s2 /\ mapChars f s1 = a /\ mapChars f s2 = b.
Proof.
  revert s. induction a as [|c a IH]; intros s H.
  - exists "", s. auto.
  - destruct s as [|d s]; [discriminate|].
    simpl in H. injection H as Hc Hs.
    destruct (IH s Hs) as (s1 & s2 & -> & H1 & H2).
    exists (String d s1), s2. simpl. rewrite Hc, H1. auto.
Qed.

Lemma prefix_iff (sub s : string) :
  prefix sub s = true <-> exists post, s = sub ++ post.
Proof.
  revert s. induction sub as [|a sub IH]; intros s.
  - destruct s; simpl; split; eauto.
  - destruct s as [|b s]; cbn [prefix].
    + split; [discriminate|]. intros [post H]. discriminate.
    + destruct (ascii_dec a b) as [->|Hne].
      * rewrite IH. split; intros [post H]; exists post.
        -- simpl. rewrite H. reflexivity.
        -- simpl in H. injection H. auto.
      * split; [discriminate|]. intros [post H]. simpl in H.
        injection H as Hab _. congruence.
Qed.

Lemma includes_iff (s sub : string) :
  includes s sub = true <-> exists pre post, s = pre ++ sub ++ post.
Proof.
  induction s as [|c s IH].
  - cbn [includes]. rewrite orb_false_r, prefix_iff. split.
    + intros [post H]. exists "", post. assumption.
    + intros (pre & post & H). destruct pre; [eauto|discriminate].
  - cbn [includes]. rewrite orb_true_iff, prefix_iff, IH. split.
    + intros [[post H]|(pre & post & H)].
      * exists "", post. assumption.
      * exists (String c pre), post. simpl. rewrite H. reflexivity.
    + intros (pre & post & H). destruct pre as [|d pre].
      * left. exists post. assumption.
      * right. simpl in H. injection H as _ H. eauto.
Qed.

(** The test of the code for a pattern in capitals. *)
Lemma includes_upper_iff (s pat : string) :
  toUpperCase pat = pat ->
  includes (toUpperCase s) pat = true <-> containsCI s pat.
Proof.
  intros Hpat. rewrite includes_iff. unfold containsCI. split.
  - intros (pre & post & H).
    apply mapChars_app_inv in H. destruct H as (s1 & s23 & -> & H1 & H).
    apply mapChars_app_inv in H. destruct H as (s2 & s3 & -> & H2 & H3).
    exists s1, s2, s3. split; [reflexivity|].
    apply equalsCI_upper. unfold toUpperCase in *. congruence.
  - intros (pre & mid & post & -> & H). apply equalsCI_upper in H.
    exists (toUpperCase pre), (toUpperCase post).
    unfold toUpperCase in *. rewrite !mapChars_app. congruence.
Qed.


End Case.

(** ** formatParagraph: the guard and the salutation *)

(** C6. When nik is the empty string formatParagraph returns the fixed
    message whatever the other fields hold: two such records get the same
    output, which shows no field of either. *)
Theorem formatParagraph_empty_nik (data : KtpData) :
  nik data = "" ->
  formatParagraph data
  = Some "Data tidak lengkap dari salah satu KTP. Pratinjau gambar mungkin tidak jelas."
  /\ forall other : KtpData,
       nik other = "" -> formatParagraph other = formatParagraph data.
Proof.
  intros H. unfold formatParagraph. rewrite H. split; [reflexivity|].
  intros other Hother. rewrite Hother. reflexivity.
Qed.

Lemma formatParagraph_empty_nik_witness :
  formatParagraph unreadable
  = Some "Data tidak lengkap dari salah satu KTP. Pratinjau gambar mungkin tidak jelas.".
Proof.
  apply (proj1 (formatParagraph_empty_nik unreadable eq_refl)).
Defined.

(** With a nik, what formatParagraph returns is the template around what
    dateToWords returns. *)
Lemma formatParagraph_template (data : KtpData) :
  nik data <> "" ->
  formatParagraph data
  = option_map (paragraph data) (dateToWords (tanggalLahir data)).
Proof.
  intros H. unfold formatParagraph.
  destruct (nik data); [congruence|]. cbn [Js.truthy negb].
  destruct (dateToWords (tanggalLahir data)); reflexivity.
Qed.

Lemma option_map_ext {A B : Type} (f g : A -> B) (x : option A) :
  (forall a, f a = g a) -> option_map f x = option_map g x.
Proof. intros H. destruct x; simpl; [rewrite H|]; reflexivity. Qed.

(** C4. For a gender and a marital status in ASCII: the salutation is
    "Tuan" when the gender holds "LAKI" in any case, whatever the marital
    status; otherwise "Nona" when the marital status equals "BELUM KAWIN" in
    any case, and "Nyonya" for every other marital status; with a nik, the
    paragraph formatParagraph returns opens with that salutation. *)
Theorem salutation_selection (data : KtpData) :
  isAscii (jenisKelamin data) = true ->
  isAscii (statusPerkawinan data) = true ->
  (containsCI (jenisKelamin data) "LAKI" -> salutation data = "Tuan")
  /\ (~ containsCI (jenisKelamin data) "LAKI" ->
      equalsCI (statusPerkawinan data) "BELUM KAWIN" ->
      salutation data = "Nona")
  /\ (~ containsCI (jenisKelamin data) "LAKI" ->
      ~ equalsCI (statusPerkawinan data) "BELUM KAWIN" ->
      salutation data = "Nyonya")
  /\ (nik data <> "" ->
      exists rest : string -> string,
        formatParagraph data
        = option_map
            (fun dateInWords =>
               "<strong>" ++ salutation data ++ " " ++ rest dateInWords)
            (dateToWords (tanggalLahir data))).
Proof.
  intros _ _.
  pose proof (includes_upper_iff (jenisKelamin data) "LAKI" eq_refl) as HL.
  pose proof (equalsCI_upper (statusPerkawinan data) "BELUM KAWIN") as HM.
  change (Js.toUpperCase "BELUM KAWIN") with "BELUM KAWIN" in HM.
  split; [|split; [|split]].
  - unfold salutation, gender. intros H. apply HL in H. rewrite H.
    reflexivity.
  - unfold salutation, gender. intros Hn Hm.
    destruct (Js.includes (Js.toUpperCase (jenisKelamin data)) "LAKI");
      [exfalso; apply Hn, HL; reflexivity|].
    apply HM in Hm. rewrite Hm. reflexivity.
  - unfold salutation, gender. intros Hn Hm.
    destruct (Js.includes (Js.toUpperCase (jenisKelamin data)) "LAKI");
      [exfalso; apply Hn, HL; reflexivity|].
    destruct (String.eqb_spec (Js.toUpperCase (statusPerkawinan data))
                              "BELUM KAWIN") as [E|E];
      [exfalso; apply Hm, HM; exact E | reflexivity].
  - intros Hnik. rewrite (formatParagraph_template data Hnik).
    eexists. apply option_map_ext. intros w. unfold paragraph.
    reflexivity.
Qed.

Lemma salutation_selection_witness :
  salutation unreadable = "Tuan"
  /\ salutation sample = "Nyonya"
  /\ exists rest : string -> string,
       formatParagraph sample
       = option_map
           (fun dateInWords =>
              "<strong>" ++ salutation sample ++ " " ++ rest dateInWords)
           (dateToWords (tanggalLahir sample)).
Proof.
  split; [|split].
  - apply (proj1 (salutation_selection unreadable eq_refl eq_refl)).
    exists "", "LAKI", "-LAKI". split; reflexivity.
  - apply (proj1 (proj2 (proj2 (salutation_selection sample
                                  eq_refl eq_refl)))).
    + intros H. apply (includes_upper_iff "PEREMPUAN" "LAKI" eq_refl) in H.
      discriminate.
    + unfold equalsCI. simpl. discriminate.
  - apply (proj2 (proj2 (proj2 (salutation_selection sample
                                  eq_refl eq_refl)))).
    simpl. discriminate.
Defined.

(** ** formatParagraph: Haji and Hajjah *)

Section Hajjah.

Import Js.

(** [gelarDepan.replace(/haji/ig, 'Hajjah')], and the scan inside a
    match. *)
Local Notation "'scan'" := (replaceAllCI "haji" "Hajjah") (only parsing).
Local Notation "'hajjah'" := (replaceAllCI "haji" "Hajjah" 0) (only parsing).











End Hajjah.




(** ** formatParagraph: the name *)

(** Without a prefix (none, empty or blank) the name starts with the name
    in capitals: no space comes before it. *)
Lemma formattedName_without_prefix (data : KtpData) :
  Js.trim (orEmpty (gelarDepanExpanded data)) = "" ->
  exists suffix : string,
    formattedName data = Js.toUpperCase (nama data) ++ suffix.
Proof.
  intros H. unfold formattedName, gelarDepan. rewrite H. cbn.
  destruct (Js.truthy (orEmpty (gelarBelakangExpanded data)));
    eexists; [reflexivity|]. symmetry. apply app_nil_r.
Qed.

(** Without a suffix (none or empty) the name ends with the name in
    capitals. *)
Lemma formattedName_without_suffix (data : KtpData) :
  orEmpty (gelarBelakangExpanded data) = "" ->
  exists prefix : string,
    formattedName data = prefix ++ Js.toUpperCase (nama data).
Proof.
  intros H. unfold formattedName. rewrite H. cbn [Js.truthy].
  destruct (Js.truthy (gelarDepan data)).
  - exists (toTitleCase (gelarDepan data) ++ " ").
    rewrite <- !app_assoc. reflexivity.
  - exists "". reflexivity.
Qed.

(** C2 (as the code behaves). A blank prefix is trimmed away and leaves no
    segment, but a blank suffix is tested as it is: the name gets a comma,
    a space and the blank. *)
Theorem formattedName_blank_suffix :
  Js.trim (orEmpty (gelarBelakangExpanded blankSuffix)) = ""
  /\ formattedName blankSuffix = "BUDI SANTOSO,  ".
Proof. split; reflexivity. Qed.

(** * Further properties of the formatting functions *)

(** ** White space at the ends of a string *)

Section Trim.

Import Js.

Ltac each_char c := destruct c as [[] [] [] [] [] [] [] []].

(** Every character is white space. *)
Local Notation "'blank'" := (ToNumber.allOf isSpace) (only parsing).

Lemma truthy_false (s : string) : truthy s = false -> s = "".
Proof. destruct s; [reflexivity|discriminate]. Qed.

Lemma blank_app (a b : string) : blank (a ++ b) = blank a && blank b.
Proof.
  induction a as [|c a IH]; simpl; [reflexivity|].
  rewrite IH. apply andb_assoc.
Qed.

Lemma trimStart_split (s : string) :
  exists l, s = l ++ trimStart s /\ blank l = true.
Proof.
  induction s as [|c s (l & Hs & Hl)]; [exists ""; auto|].
  simpl. destruct (isSpace c) eqn:E; [|exists ""; auto].
  exists (String c l). simpl. rewrite E, Hl, <- Hs. auto.
Qed.

Lemma trimEnd_split (s : string) :
  exists r, s = trimEnd s ++ r /\ blank r = true.
Proof.
  induction s as [|c s (r & Hs & Hr)]; [exists ""; auto|].
  simpl. destruct (isSpace c && negb (truthy (trimEnd s))) eqn:E.
  - apply andb_true_iff in E. destruct E as [Ec Et].
    apply negb_true_iff, truthy_false in Et. rewrite Et in Hs.
    simpl in Hs. subst r. exists (String c s).
    split; [reflexivity|]. simpl. rewrite Ec. exact Hr.
  - exists r. simpl. rewrite <- Hs. auto.
Qed.

(** A string is its trimmed part between two runs of white space. *)
Lemma trim_split (s : string) :
  exists l r, s = l ++ trim s ++ r /\ blank l = true /\ blank r = true.
Proof.
  destruct (trimStart_split s) as (l & Hs & Hl).
  destruct (trimEnd_split (trimStart s)) as (r & Ht & Hr).
  exists l, r. unfold trim. rewrite <- Ht. auto.
Qed.

Lemma trimStart_blank (l t : string) :
  blank l = true -> trimStart (l ++ t) = trimStart t.
Proof.
  induction l as [|c l IH]; [reflexivity|]. simpl. intros H.
  apply andb_true_iff in H. destruct H as [Hc Hl]. rewrite Hc. auto.
Qed.

Lemma trimEnd_blank (t r : string) :
  blank r = true -> trimEnd (t ++ r) = trimEnd t.
Proof.
  intros Hr.
  assert (H0 : trimEnd r = "").
  { induction r as [|c r IH]; [reflexivity|]. simpl in *.
    apply andb_true_iff in Hr. destruct Hr as [Hc Hr].
    rewrite (IH Hr), Hc. reflexivity. }
  induction t as [|c t IH]; simpl; [assumption|]. rewrite IH. reflexivity.
Qed.

Lemma trimStart_clean (s : string) :
  startsClean s = true -> trimStart s = s.
Proof.
  destruct s as [|c s]; [reflexivity|]. simpl. intros H.
  apply negb_true_iff in H. rewrite H. reflexivity.
Qed.

Lemma trimEnd_clean (s : string) : endsClean s = true -> trimEnd s = s.
Proof.
  induction s as [|c s IH]; [reflexivity|].
  destruct s as [|d s].
  - simpl. intros H. apply negb_true_iff in H. rewrite H. reflexivity.
  - intros H. change (endsClean (String d s) = true) in H.
    change (trimEnd (String c (String d s)))
      with (if isSpace c && negb (truthy (trimEnd (String d s)))
            then "" else String c (trimEnd (String d s))).
    rewrite (IH H). cbn [truthy negb].
    rewrite andb_false_r. reflexivity.
Qed.

Lemma trimEnd_startsClean (s : string) :
  startsClean s = true -> startsClean (trimEnd s) = true.
Proof.
  destruct s as [|c s]; [reflexivity|]. simpl. intros H.
  apply negb_true_iff in H. rewrite H. simpl. rewrite H. reflexivity.
Qed.

Lemma trimEnd_endsClean (s : string) : endsClean (trimEnd s) = true.
Proof.
  induction s as [|c s IH]; [reflexivity|]. simpl.
  destruct (isSpace c && negb (truthy (trimEnd s))) eqn:E; [reflexivity|].
  destruct (trimEnd s) as [|d t] eqn:Et.
  - simpl in *. rewrite andb_true_r in E. rewrite E. reflexivity.
  - exact IH.
Qed.

Lemma trimStart_startsClean (s : string) : startsClean (trimStart s) = true.
Proof.
  induction s as [|c s IH]; [reflexivity|]. simpl.
  destruct (isSpace c) eqn:E; [assumption|]. simpl. rewrite E. reflexivity.
Qed.

Lemma trim_clean (s : string) :
  startsClean s = true -> endsClean s = true -> trim s = s.
Proof.
  intros Hs He. unfold trim. rewrite (trimStart_clean s Hs).
  apply trimEnd_clean. assumption.
Qed.

Lemma trim_idempotent (s : string) : trim (trim s) = trim s.
Proof.
  apply trim_clean.
  - apply trimEnd_startsClean, trimStart_startsClean.
  - apply trimEnd_endsClean.
Qed.

(** White space around a clean string is what [trim] removes. *)
Lemma trim_padded (l t r : string) :
  blank l = true -> blank r = true ->
  startsClean t = true -> endsClean t = true ->
  trim (l ++ t ++ r) = t.
Proof.
  intros Hl Hr Hs He. unfold trim.
  rewrite (trimStart_blank l _ Hl).
  destruct t as [|c t].
  - simpl. assert (H := trimStart_split r). destruct H as (l' & H & Hl').
    assert (Hb : blank (trimStart r) = true).
    { rewrite H, blank_app in Hr. apply andb_true_iff in Hr. apply Hr. }
    rewrite <- (app_nil_r (trimStart r)).
    change (trimEnd ("" ++ trimStart r ++ "") = "").
    rewrite app_nil_r. apply (trimEnd_blank "" _ Hb).
  - rewrite trimStart_clean by exact Hs.
    rewrite (trimEnd_blank _ r Hr). apply trimEnd_clean. assumption.
Qed.

End Trim.

(** ** toTitleCase *)

Section TitleCase.

Import Js.

Ltac each_char c := destruct c as [[] [] [] [] [] [] [] []].

Lemma lowerChar_idempotent (c : ascii) : lowerChar (lowerChar c) = lowerChar c.
Proof. each_char c; reflexivity. Qed.

Lemma lowerChar_wordChar (c : ascii) : isWordChar (lowerChar c) = isWordChar c.
Proof. each_char c; reflexivity. Qed.

Lemma lowerChar_not_word (c : ascii) : isWordChar c = false -> lowerChar c = c.
Proof. each_char c; vm_compute; congruence. Qed.

Lemma toTitleCase_eq (s : string) :
  toTitleCase s = capitalizeWords false (toLowerCase s).
Proof. destruct s; reflexivity. Qed.

Lemma capitalizeWords_lower (f : bool) (t : string) :
  toLowerCase (capitalizeWords f t) = toLowerCase t.
Proof.
  revert f. induction t as [|c t IH]; intros f; [reflexivity|].
  cbn [capitalizeWords toLowerCase mapChars]. fold toLowerCase.
  rewrite IH. destruct (isWordChar c && negb f);
    rewrite ?lower_upper; reflexivity.
Qed.

Lemma toLowerCase_idempotent (s : string) :
  toLowerCase (toLowerCase s) = toLowerCase s.
Proof.
  induction s as [|c s IH]; [reflexivity|].
  cbn [toLowerCase mapChars]. fold toLowerCase.
  rewrite lowerChar_idempotent, IH. reflexivity.
Qed.

Lemma capitalizeWords_separator (c : ascii) (f : bool) (x y : string) :
  isWordChar c = false ->
  capitalizeWords f (x ++ String c y)
  = capitalizeWords f x ++ String c (capitalizeWords false y).
Proof.
  intros Hc. revert f. induction x as [|d x IH]; intros f.
  - simpl. rewrite Hc. reflexivity.
  - cbn [append capitalizeWords]. rewrite IH. reflexivity.
Qed.

Lemma capitalizeWords_inside (t : string) :
  ToNumber.allOf isWordChar t = true -> capitalizeWords true t = t.
Proof.
  induction t as [|c t IH]; [reflexivity|]. simpl. intros H.
  apply andb_true_iff in H. destruct H as [Hc Ht].
  rewrite Hc, andb_false_r, (IH Ht). reflexivity.
Qed.

Lemma toLowerCase_word (t : string) :
  ToNumber.allOf isWordChar (toLowerCase t) = ToNumber.allOf isWordChar t.
Proof.
  induction t as [|c t IH]; [reflexivity|]. simpl.
  rewrite lowerChar_wordChar. fold toLowerCase. rewrite IH. reflexivity.
Qed.

(** On ASCII text toTitleCase changes the case of letters and nothing
    else: the result equals the input up to case, and has its length. *)
Theorem toTitleCase_case_only (s : string) :
  isAscii s = true ->
  equalsCI (toTitleCase s) s
  /\ String.length (toTitleCase s) = String.length s.
Proof.
  intros _. split.
  - unfold equalsCI.
    rewrite toTitleCase_eq, capitalizeWords_lower.
    apply toLowerCase_idempotent.
  - rewrite toTitleCase_eq. generalize false.
    induction s as [|c s IH]; intros f; [reflexivity|].
    simpl. f_equal. apply IH.
Qed.

Lemma toTitleCase_case_only_witness :
  equalsCI (toTitleCase "kARYAWAN swasta") "kARYAWAN swasta"
  /\ String.length (toTitleCase "kARYAWAN swasta")
     = String.length "kARYAWAN swasta".
Proof.
  apply (toTitleCase_case_only "kARYAWAN swasta"). reflexivity.
Defined.

(** Title-casing a title-cased string changes nothing. *)
Theorem toTitleCase_idempotent (s : string) :
  toTitleCase (toTitleCase s) = toTitleCase s.
Proof.
  rewrite !toTitleCase_eq, capitalizeWords_lower, toLowerCase_idempotent.
  reflexivity.
Qed.



(** On ASCII text toTitleCase treats the text on either side of a
    character that is no letter, digit or underscore (a space, a comma, a
    hyphen, a full stop) on its own. *)
Theorem toTitleCase_separator (c : ascii) (a b : string) :
  isAscii a = true -> isAscii (String c b) = true ->
  isWordChar c = false ->
  toTitleCase (a ++ String c b)
  = toTitleCase a ++ String c (toTitleCase b).
Proof.
  intros _ _ Hc. rewrite !toTitleCase_eq. unfold toLowerCase.
  rewrite mapChars_app. cbn [mapChars].
  rewrite (lowerChar_not_word c Hc).
  apply capitalizeWords_separator. assumption.
Qed.

Lemma toTitleCase_separator_witness :
  toTitleCase ("sarjana komputer" ++ String "," " MAGISTER teknik")
  = toTitleCase "sarjana komputer"
      ++ String "," (toTitleCase " MAGISTER teknik").
Proof.
  apply (toTitleCase_separator "," "sarjana komputer" " MAGISTER teknik");
    reflexivity.
Defined.

(** A run of letters, digits and underscores comes out with its first
    character in upper case and the others in lower case. *)
Theorem toTitleCase_word (c : ascii) (w : string) :
  ToNumber.allOf isWordChar (String c w) = true ->
  toTitleCase (String c w) = String (upperChar c) (toLowerCase w).
Proof.
  simpl. intros H. apply andb_true_iff in H. destruct H as [Hc Hw].
  unfold toTitleCase. cbn [truthy negb toLowerCase mapChars capitalizeWords].
  fold toLowerCase.
  rewrite lowerChar_wordChar, Hc, upper_lower. cbn [andb negb].
  rewrite capitalizeWords_inside by (rewrite toLowerCase_word; exact Hw).
  reflexivity.
Qed.

Lemma toTitleCase_word_witness :
  toTitleCase (String "d" "OKTOR") = String (upperChar "d") (toLowerCase "OKTOR").
Proof.
  apply (toTitleCase_word "d" "OKTOR"). reflexivity.
Defined.

End TitleCase.

(** ** numberToWords: the shape of the result *)

(** The words numberToWords returns have no white space at either end. *)
Theorem numberToWords_trimmed (num : number) :
  Js.trim (numberToWords num) = numberToWords num
  /\ forall c rest, numberToWords num = String c rest -> Js.isSpace c = false.
Proof.
  assert (H : Js.trim (numberToWords num) = numberToWords num).
  { rewrite numberToWords_eq.
    destruct (Num.strictEq num 0); [reflexivity|]. apply trim_idempotent. }
  split; [exact H|].
  intros c rest E. rewrite E in H. unfold Js.trim in H. simpl in H.
  destruct (Js.isSpace c) eqn:Ec; [|reflexivity].
  exfalso.
  pose proof (trimEnd_startsClean _ (trimStart_startsClean rest)) as Hs.
  rewrite H in Hs. simpl in Hs. rewrite Ec in Hs. discriminate.
Qed.

(** Zero and every positive number (up to 2^53, where the arithmetic of
    the code is exact) get at least one word. *)
Theorem numberToWords_not_empty (n : Z) :
  0 <= n <= 2 ^ 53 -> numberToWords (Num n) <> "".
Proof.
  intros Hn.
  destruct (Z_lt_le_dec n 1000) as [Hlt|Hge].
  - assert (H : Js.truthy (numberToWords (Num n)) = true).
    { apply (forall_range (fun z => Js.truthy (numberToWords (Num z)))
               0 1000); [vm_compute; reflexivity | lia]. }
    intros E. rewrite E in H. discriminate.
  - rewrite numberToWords_segments by lia. intros E.
    destruct (trim_split
                (Spec.thousandsSegment (fun t => numberToWords (Num t))
                                       (n / 1000)
                   ++ Spec.hundredsSegment (n mod 1000 / 100)
                   ++ Spec.remainderSegment (n mod 100)))
      as (l & r & Hsplit & Hl & Hr).
    rewrite E in Hsplit.
    assert (Hb : ToNumber.allOf Js.isSpace (l ++ "" ++ r) = true)
      by (rewrite !blank_app, Hl, Hr; reflexivity).
    rewrite <- Hsplit in Hb. rewrite blank_app in Hb.
    apply andb_true_iff in Hb. destruct Hb as [Hb _].
    unfold Spec.thousandsSegment in Hb.
    assert (1 <= n / 1000) by (apply Z.div_le_lower_bound; lia).
    destruct (Z.eqb_spec (n / 1000) 0); [lia|].
    destruct (n / 1000 =? 1); [discriminate|].
    rewrite blank_app in Hb. apply andb_true_iff in Hb.
    destruct Hb as [_ Hb]. discriminate.
Qed.

Lemma numberToWords_not_empty_witness : numberToWords (Num 1000000) <> "".
Proof.
  apply (numberToWords_not_empty 1000000).
  vm_compute. split; discriminate.
Defined.

(** ** formatParagraph: citizenship, RT and RW, the guard *)

Section Fields.

Import Js.

Ltac each_char c := destruct c as [[] [] [] [] [] [] [] []].

Lemma upperChar_space (c : ascii) : isSpace (upperChar c) = isSpace c.
Proof. each_char c; reflexivity. Qed.

Lemma toUpperCase_blank (s : string) :
  ToNumber.allOf isSpace (toUpperCase s) = ToNumber.allOf isSpace s.
Proof.
  induction s as [|c s IH]; [reflexivity|]. simpl.
  rewrite upperChar_space. fold toUpperCase. rewrite IH. reflexivity.
Qed.

(** The end of the paragraph: the nik and the citizenship. *)
Lemma paragraph_end (data : KtpData) :
  exists front : string -> string,
    forall w, paragraph data w
              = front w ++ "Nomor Induk Kependudukan " ++ nik data
                  ++ ", " ++ citizenship data ++ ".".
Proof.
  exists (fun w =>
            "<strong>" ++ salutation data ++ " " ++ formattedName data
              ++ "</strong>" ++ ", dilahirkan di "
              ++ toTitleCase (tempatLahir data) ++ ", tanggal "
              ++ tanggalLahir data ++ " (" ++ w ++ "), "
              ++ toTitleCase (pekerjaan data) ++ ", " ++ fullAddress data
              ++ ", pemegang Kartu Tanda Penduduk dengan ").
  intros w. unfold paragraph. rewrite !app_assoc. reflexivity.
Qed.

Lemma formatParagraph_end (data : KtpData) (shown : string) :
  nik data <> "" -> citizenship data = shown ->
  exists front : string -> string,
    formatParagraph data
    = option_map
        (fun dateInWords =>
           front dateInWords ++ "Nomor Induk Kependudukan " ++ nik data
             ++ ", " ++ shown ++ ".")
        (dateToWords (tanggalLahir data)).
Proof.
  intros Hnik <-. destruct (paragraph_end data) as [front Hfront].
  exists front. rewrite (formatParagraph_template data Hnik).
  apply option_map_ext. exact Hfront.
Qed.

(** For a citizenship in ASCII, and with a nik: the paragraph
    formatParagraph returns ends with "Warga Negara Indonesia" after the
    nik exactly when the field is "WNI" in any case between white space;
    every other value is shown there as it is, its white space included. *)
Theorem citizenship_normalized (data : KtpData) :
  isAscii (kewarganegaraan data) = true ->
  nik data <> "" ->
  (forall l m r : string,
     kewarganegaraan data = l ++ m ++ r ->
     ToNumber.allOf isSpace l = true -> ToNumber.allOf isSpace r = true ->
     equalsCI m "WNI" ->
     exists front : string -> string,
       formatParagraph data
       = option_map
           (fun dateInWords =>
              front dateInWords ++ "Nomor Induk Kependudukan " ++ nik data
                ++ ", " ++ "Warga Negara Indonesia" ++ ".")
           (dateToWords (tanggalLahir data)))
  /\ ((forall l m r : string,
         kewarganegaraan data = l ++ m ++ r ->
         ToNumber.allOf isSpace l = true -> ToNumber.allOf isSpace r = true ->
         ~ equalsCI m "WNI") ->
      exists front : string -> string,
        formatParagraph data
        = option_map
            (fun dateInWords =>
               front dateInWords ++ "Nomor Induk Kependudukan " ++ nik data
                 ++ ", " ++ kewarganegaraan data ++ ".")
            (dateToWords (tanggalLahir data))).
Proof.
  intros _ Hnik. split.
  - intros l m r Hk Hl Hr Hm.
    apply (formatParagraph_end data _ Hnik).
    unfold citizenship. rewrite Hk. unfold toUpperCase.
    rewrite !mapChars_app. fold toUpperCase.
    apply equalsCI_upper in Hm. rewrite Hm.
    rewrite trim_padded; try reflexivity;
      rewrite toUpperCase_blank; assumption.
  - intros Hno. apply (formatParagraph_end data _ Hnik).
    unfold citizenship.
    destruct (String.eqb_spec (trim (toUpperCase (kewarganegaraan data)))
                              "WNI") as [E|E]; [|reflexivity].
    exfalso.
    destruct (trim_split (toUpperCase (kewarganegaraan data)))
      as (l' & r' & Hsplit & Hl & Hr).
    rewrite E in Hsplit. unfold toUpperCase in Hsplit.
    apply mapChars_app_inv in Hsplit.
    destruct Hsplit as (l & mr & Hk & Hl' & Hmr).
    apply mapChars_app_inv in Hmr. destruct Hmr as (m & r & -> & Hm & Hr').
    apply (Hno l m r Hk).
    + rewrite <- toUpperCase_blank. unfold toUpperCase. rewrite Hl'. exact Hl.
    + rewrite <- toUpperCase_blank. unfold toUpperCase. rewrite Hr'. exact Hr.
    + apply equalsCI_upper. exact Hm.
Qed.

Lemma citizenship_normalized_witness :
  exists front : string -> string,
    formatParagraph foreigner
    = option_map
        (fun dateInWords =>
           front dateInWords ++ "Nomor Induk Kependudukan " ++ nik foreigner
             ++ ", " ++ "Warga Negara Indonesia" ++ ".")
        (dateToWords (tanggalLahir foreigner)).
Proof.
  assert (Hnik : nik foreigner <> "") by (simpl; discriminate).
  apply (proj1 (citizenship_normalized foreigner eq_refl Hnik) " " "wni" " ");
    reflexivity.
Defined.

Lemma filler_zero (k : nat) (rest : string) :
  rest = "" \/ rest = "0" ->
  ToNumber.allOf (Ascii.eqb "0") (filler k "0" rest) = true
  /\ String.length (filler k "0" rest) = k.
Proof.
  revert rest. induction k as [|k IH]; intros rest Hrest; [auto|].
  destruct (IH "" (or_introl eq_refl)) as [Hz Hl].
  destruct Hrest as [->| ->]; simpl; rewrite Hz, Hl; auto.
Qed.

(** For RT and RW in ASCII, and with a nik: the paragraph formatParagraph
    returns shows each of them after its label with zeros in front, as many
    as the field lacks to three characters (none for a field of three
    characters or more); nothing checks that the field is a number. *)
Theorem formatParagraph_rt_rw (data : KtpData) :
  isAscii (rt data) = true -> isAscii (rw data) = true ->
  nik data <> "" ->
  exists (zerosRT zerosRW : string) (front : string -> string)
         (back : string),
    formatParagraph data
    = option_map
        (fun dateInWords =>
           front dateInWords ++ ", Rukun Tetangga " ++ zerosRT ++ rt data
             ++ ", Rukun Warga " ++ zerosRW ++ rw data
             ++ ", Kelurahan " ++ back)
        (dateToWords (tanggalLahir data))
    /\ ToNumber.allOf (Ascii.eqb "0") zerosRT = true
    /\ String.length zerosRT = (3 - String.length (rt data))%nat
    /\ ToNumber.allOf (Ascii.eqb "0") zerosRW = true
    /\ String.length zerosRW = (3 - String.length (rw data))%nat.
Proof.
  intros _ _ Hnik.
  exists (filler (3 - String.length (rt data)) "0" "0"),
         (filler (3 - String.length (rw data)) "0" "0"),
         (fun w =>
            "<strong>" ++ salutation data ++ " " ++ formattedName data
              ++ "</strong>" ++ ", dilahirkan di "
              ++ toTitleCase (tempatLahir data) ++ ", tanggal "
              ++ tanggalLahir data ++ " (" ++ w ++ "), "
              ++ toTitleCase (pekerjaan data) ++ ", "
              ++ "bertempat tinggal di " ++ toTitleCase (kota data) ++ ", "
              ++ alamat data),
         (toTitleCase (kelDesa data) ++ ", Kecamatan "
            ++ toTitleCase (kecamatan data)
            ++ ", pemegang Kartu Tanda Penduduk dengan Nomor Induk Kependudukan "
            ++ nik data ++ ", " ++ citizenship data ++ ".").
  split.
  - rewrite (formatParagraph_template data Hnik).
    apply option_map_ext. intros w.
    unfold paragraph, fullAddress, padStart. rewrite !app_assoc.
    reflexivity.
  - destruct (filler_zero (3 - String.length (rt data)) "0"
                (or_intror eq_refl)) as [H1 H2].
    destruct (filler_zero (3 - String.length (rw data)) "0"
                (or_intror eq_refl)) as [H3 H4].
    auto.
Qed.

Lemma formatParagraph_rt_rw_witness :
  exists (zerosRT zerosRW : string) (front : string -> string)
         (back : string),
    formatParagraph foreigner
    = option_map
        (fun dateInWords =>
           front dateInWords ++ ", Rukun Tetangga " ++ zerosRT ++ rt foreigner
             ++ ", Rukun Warga " ++ zerosRW ++ rw foreigner
             ++ ", Kelurahan " ++ back)
        (dateToWords (tanggalLahir foreigner))
    /\ ToNumber.allOf (Ascii.eqb "0") zerosRT = true
    /\ String.length zerosRT = (3 - String.length (rt foreigner))%nat
    /\ ToNumber.allOf (Ascii.eqb "0") zerosRW = true
    /\ String.length zerosRW = (3 - String.length (rw foreigner))%nat.
Proof.
  assert (Hnik : nik foreigner <> "") by (simpl; discriminate).
  apply (formatParagraph_rt_rw foreigner eq_refl eq_refl Hnik).
Defined.

(** The fixed message is returned for an empty nik and for no other
    record. *)
Theorem formatParagraph_sentinel_iff (data : KtpData) :
  formatParagraph data = Some sentinel <-> nik data = "".
Proof.
  unfold formatParagraph. split.
  - destruct (nik data) as [|c n]; [reflexivity|]. cbn [truthy negb].
    destruct (dateToWords (tanggalLahir data)); discriminate.
  - intros ->. reflexivity.
Qed.

End Fields.

(** ** dateToWords: what is not checked *)

Lemma months_past_end (m : Z) : 12 < m -> Num.at_ months (Num m) = None.
Proof.
  intros Hm. unfold Num.at_, Js.item.
  destruct (Z.ltb_spec m 0); [lia|].
  apply nth_error_None. simpl. lia.
Qed.

(** dateToWords checks neither the width of the components nor the range
    of the month: with components of one to fifteen digits, the month 0
    gives an empty month name and a month above 12 the printed undefined. *)
Theorem dateToWords_month_unchecked (dd mm yyyy : string) :
  ToNumber.allDigits dd = true -> (1 <= String.length dd <= 15)%nat ->
  ToNumber.allDigits mm = true -> (1 <= String.length mm <= 15)%nat ->
  ToNumber.allDigits yyyy = true -> (1 <= String.length yyyy <= 15)%nat ->
  let day := numberToWords (Num (ToNumber.decimal 0 dd)) in
  let year :=
    (if 2000 <=? ToNumber.decimal 0 yyyy then "tahun " else "")
      ++ numberToWords (Num (ToNumber.decimal 0 yyyy)) in
  (1 <= ToNumber.decimal 0 mm <= 12 ->
   dateToWords (dd ++ "-" ++ mm ++ "-" ++ yyyy)
   = Some (day ++ " " ++ DateSpec.monthName (ToNumber.decimal 0 mm)
             ++ " " ++ year))
  /\ (ToNumber.decimal 0 mm = 0 ->
      dateToWords (dd ++ "-" ++ mm ++ "-" ++ yyyy)
      = Some (day ++ "  " ++ year))
  /\ (12 < ToNumber.decimal 0 mm ->
      dateToWords (dd ++ "-" ++ mm ++ "-" ++ yyyy)
      = Some (day ++ " undefined " ++ year)).
Proof.
  intros Hd Ld Hm Lm Hy Ly. cbv zeta.
  rewrite (dateToWords_digits dd mm yyyy Hd Ld Hm Lm Hy Ly).
  split; [|split]; intros H.
  - rewrite (months_named _ H). reflexivity.
  - rewrite H. reflexivity.
  - rewrite (months_past_end _ H). reflexivity.
Qed.

Lemma dateToWords_month_unchecked_witness :
  dateToWords ("1" ++ "-" ++ "0" ++ "-" ++ "99")
  = Some (numberToWords (Num (ToNumber.decimal 0 "1")) ++ "  "
            ++ (if 2000 <=? ToNumber.decimal 0 "99" then "tahun " else "")
            ++ numberToWords (Num (ToNumber.decimal 0 "99")))
  /\ dateToWords ("31" ++ "-" ++ "99" ++ "-" ++ "2024")
     = Some (numberToWords (Num (ToNumber.decimal 0 "31")) ++ " undefined "
               ++ (if 2000 <=? ToNumber.decimal 0 "2024" then "tahun " else "")
               ++ numberToWords (Num (ToNumber.decimal 0 "2024"))).
Proof.
  split.
  - apply (proj1 (proj2 (dateToWords_month_unchecked "1" "0" "99"
             eq_refl ltac:(simpl; lia) eq_refl ltac:(simpl; lia)
             eq_refl ltac:(simpl; lia)))).
    reflexivity.
  - apply (proj2 (proj2 (dateToWords_month_unchecked "31" "99" "2024"
             eq_refl ltac:(simpl; lia) eq_refl ltac:(simpl; lia)
             eq_refl ltac:(simpl; lia)))).
    reflexivity.
Defined.

(** dateToWords reads the first three components. A missing month is
    printed as undefined, a missing year leaves the year phrase empty, and
    components after the third change nothing. *)
Theorem dateToWords_components (dd mm yyyy : string) :
  ToNumber.allDigits dd = true -> (1 <= String.length dd <= 15)%nat ->
  ToNumber.allDigits mm = true -> (1 <= String.length mm <= 15)%nat ->
  ToNumber.allDigits yyyy = true -> (1 <= String.length yyyy <= 15)%nat ->
  dateToWords dd
  = Some (numberToWords (Num (ToNumber.decimal 0 dd)) ++ " undefined ")
  /\ dateToWords (dd ++ "-" ++ mm)
     = Some (numberToWords (Num (ToNumber.decimal 0 dd)) ++ " "
               ++ Js.str (Num.at_ months (Num (ToNumber.decimal 0 mm)))
               ++ " ")
  /\ forall (more : string) (ns : list number),
       ToNumber.mapNumber (Js.split "-" more) = Some ns ->
       dateToWords (dd ++ "-" ++ mm ++ "-" ++ yyyy ++ "-" ++ more)
       = dateToWords (dd ++ "-" ++ mm ++ "-" ++ yyyy).
Proof.
  intros Hd Ld Hm Lm Hy Ly.
  assert (HN : numberToWords NaN = "") by reflexivity.
  split; [|split].
  - unfold dateToWords. rewrite (split_digits_last dd Hd).
    cbn [ToNumber.mapNumber]. rewrite (Number_digits dd Hd Ld).
    cbn [ToNumber.element nth Num.ge Num.at_ Js.str]. rewrite HN.
    reflexivity.
  - unfold dateToWords.
    change (dd ++ "-" ++ mm) with (dd ++ String "-" mm).
    rewrite (split_digits_dash dd _ Hd), (split_digits_last mm Hm).
    cbn [ToNumber.mapNumber].
    rewrite (Number_digits dd Hd Ld), (Number_digits mm Hm Lm).
    cbn [ToNumber.element nth Num.ge]. rewrite HN. reflexivity.
  - intros more ns Hmore.
    rewrite (dateToWords_digits dd mm yyyy Hd Ld Hm Lm Hy Ly).
    unfold dateToWords.
    change (dd ++ "-" ++ mm ++ "-" ++ yyyy ++ "-" ++ more)
      with (dd ++ String "-" (mm ++ String "-" (yyyy ++ String "-" more))).
    rewrite (split_digits_dash dd _ Hd), (split_digits_dash mm _ Hm),
      (split_digits_dash yyyy _ Hy).
    cbn [ToNumber.mapNumber].
    rewrite (Number_digits dd Hd Ld), (Number_digits mm Hm Lm),
      (Number_digits yyyy Hy Ly), Hmore.
    cbn [ToNumber.element nth Num.ge].
    destruct (2000 <=? ToNumber.decimal 0 yyyy); reflexivity.
Qed.

Lemma dateToWords_components_witness :
  dateToWords "1945"
  = Some (numberToWords (Num (ToNumber.decimal 0 "1945")) ++ " undefined ")
  /\ dateToWords ("17" ++ "-" ++ "08" ++ "-" ++ "1945" ++ "-" ++ "pagi")
     = dateToWords ("17" ++ "-" ++ "08" ++ "-" ++ "1945").
Proof.
  split.
  - apply (proj1 (dateToWords_components "1945" "08" "1945"
             eq_refl ltac:(simpl; lia) eq_refl ltac:(simpl; lia)
             eq_refl ltac:(simpl; lia))).
  - apply (proj2 (proj2 (dateToWords_components "17" "08" "1945"
             eq_refl ltac:(simpl; lia) eq_refl ltac:(simpl; lia)
             eq_refl ltac:(simpl; lia))) "pagi" [NaN]).
    reflexivity.
Defined.

(** * The page: invariants of the handlers *)

Section PageFacts.

Import Page.

(** The helpers a handler is made of, opened up. *)
Ltac open_handlers :=
  unfold handleNewFileSelection, addFilesToQueue, onloadend, onerror,
    displayResults, resetApp, setLoadingState, showError, createFileList,
    andThen, classListAdd, classListRemove, setClass in *.

Ltac branches :=
  repeat match goal with
         | |- context [match ?x with _ => _ end] => destruct x eqn:?
         end.

(** ** The error message and the results *)

Lemma oneMessage_showError (message : string) (s : page) :
  oneMessage (showError message s).
Proof. right. reflexivity. Qed.

Lemma oneMessage_resetApp (s : page) : oneMessage (resetApp s).
Proof. right. reflexivity. Qed.

Lemma oneMessage_setLoadingState (b : bool) (s : page) :
  oneMessage s -> oneMessage (setLoadingState b s).
Proof. destruct b; intros [H|H]; [right|right|left|right]; try reflexivity; exact H. Qed.

(** The loop of displayResults touches the result list only. *)
Lemma appendResults_frame (rs : list (option KtpData)) (s s' : page) :
  appendResults rs s = inl s' \/ appendResults rs s = inr s' ->
  uploadedFiles s' = uploadedFiles s /\ readers s' = readers s
  /\ previews s' = previews s /\ classList s' = classList s
  /\ disabled s' = disabled s /\ textContent s' = textContent s.
Proof.
  revert s. induction rs as [|[d|] rs IH]; intros s H; cbn [appendResults] in H.
  - destruct H as [H|H]; [discriminate|]. injection H as <-. auto 10.
  - apply IH in H. exact H.
  - destruct H as [H|H]; [|discriminate]. injection H as <-. auto 10.
Qed.

Lemma displayResults_frame (rs : list (option KtpData)) (s s' : page) :
  displayResults rs s = inl s' \/ displayResults rs s = inr s' ->
  uploadedFiles s' = uploadedFiles s /\ readers s' = readers s
  /\ previews s' = previews s.
Proof.
  unfold displayResults. intros H.
  destruct (appendResults rs (setResults [] s)) as [t|t] eqn:E.
  - destruct (appendResults_frame rs _ t (or_introl E))
      as (H1 & H2 & H3 & _).
    destruct H as [H|H]; [|discriminate]. injection H as <-. auto.
  - destruct (appendResults_frame rs _ t (or_intror E))
      as (H1 & H2 & H3 & _).
    destruct H as [H|H]; [discriminate|]. injection H as <-.
    destruct (0 <? List.length rs)%nat; auto.
Qed.

Lemma oneMessage_displayResults (rs : list (option KtpData)) (s s' : page) :
  displayResults rs s = inr s' -> oneMessage s -> oneMessage s'.
Proof.
  unfold displayResults. intros H Hs.
  destruct (appendResults rs (setResults [] s)) as [t|t] eqn:E;
    [discriminate|].
  destruct (appendResults_frame rs _ t (or_intror E))
    as (_ & _ & _ & Hc & _).
  injection H as <-.
  destruct (0 <? List.length rs)%nat; [left; reflexivity|].
  unfold oneMessage in *. rewrite Hc. exact Hs.
Qed.

Lemma oneMessage_addFilesToQueue (files : list File) (s : page) :
  oneMessage s -> oneMessage (addFilesToQueue files s).
Proof.
  unfold addFilesToQueue.
  destruct (MAX_FILES <? _)%nat; [right; reflexivity|exact (fun H => H)].
Qed.

Lemma oneMessage_select (files : option (list File)) (s : page) :
  oneMessage s -> oneMessage (handleNewFileSelection files s).
Proof.
  intros H. destruct files as [[|f fs]|]; try exact H.
  apply oneMessage_addFilesToQueue, oneMessage_resetApp.
Qed.

Lemma oneMessage_dropZone (v : bool) (s : page) :
  oneMessage s -> oneMessage (setClass dropZone "drop-zone-active" v s).
Proof. exact (fun H => H). Qed.

Lemma oneMessage_handle (s s' : page) (e : event) :
  handle s e = Some s' -> oneMessage s -> oneMessage s'.
Proof.
  intros He H. destruct e; cbn [handle] in He.
  - injection He as <-. apply oneMessage_dropZone. exact H.
  - injection He as <-. apply oneMessage_dropZone. exact H.
  - injection He as <-. unfold andThen. destruct files as [files|].
    + apply (oneMessage_select (Some files)), oneMessage_dropZone. exact H.
    + apply oneMessage_dropZone. exact H.
  - injection He as <-. destruct files as [files|]; [|exact H].
    apply (oneMessage_select (Some files)). exact H.
  - destruct items as [items|]; [|injection He as <-; exact H].
    destruct (0 <? _)%nat; injection He as <-; [|exact H].
    apply (oneMessage_select (Some _)). exact H.
  - destruct (nth_error (readers s) reader) as [f|]; [|discriminate].
    injection He as <-. unfold onloadend.
    destruct (dataUrlParts result) as [?|[m b]];
      [apply oneMessage_showError|exact H].
  - destruct (nth_error (readers s) reader) as [f|]; [|discriminate].
    injection He as <-. apply oneMessage_showError.
  - destruct (List.length (uploadedFiles s) =? 0)%nat; injection He as <-.
    + apply oneMessage_showError.
    + right. reflexivity.
  - destruct (nth_error (awaited s) click) as [calls|]; [|discriminate].
    destruct outcome as [rs|].
    + destruct (List.length rs =? calls)%nat; [|discriminate].
      destruct (displayResults rs _) as [t|t] eqn:Ed; injection He as <-.
      * apply (oneMessage_setLoadingState false), oneMessage_showError.
      * apply (oneMessage_setLoadingState false).
        apply (oneMessage_displayResults rs _ t Ed). exact H.
    + injection He as <-.
      apply (oneMessage_setLoadingState false), oneMessage_showError.
  - injection He as <-. apply oneMessage_resetApp.
Qed.

(** Whatever events follow one another, the error message and the results
    are never shown together, once that holds (as after a reset). *)
Theorem page_one_message (es : list event) (s s' : page) :
  run s es = Some s' -> oneMessage s -> oneMessage s'.
Proof.
  revert s. induction es as [|e es IH]; intros s Hrun H.
  - injection Hrun as <-. exact H.
  - cbn [run] in Hrun. destruct (handle s e) as [s1|] eqn:He; [|discriminate].
    apply (IH s1 Hrun). apply (oneMessage_handle s s1 e He H).
Qed.

Lemma page_one_message_witness :
  oneMessage
    (showError "Silakan pilih gambar terlebih dahulu." Page.blank).
Proof.
  apply (page_one_message [ProcessClick] Page.blank _ eq_refl).
  right. reflexivity.
Defined.

(** ** Data URLs *)

Lemma allOf_app (p : ascii -> bool) (a b : string) :
  ToNumber.allOf p (a ++ b) = ToNumber.allOf p a && ToNumber.allOf p b.
Proof.
  induction a as [|c a IH]; simpl; [reflexivity|].
  rewrite IH. apply andb_assoc.
Qed.

Lemma split_lacks (sep : ascii) (s : string) :
  lacks sep s = true -> Js.split sep s = [s].
Proof.
  unfold lacks. induction s as [|c s IH]; simpl; [reflexivity|].
  intros H. apply andb_true_iff in H. destruct H as [Hc Hs].
  apply negb_true_iff in Hc. rewrite Hc, (IH Hs). reflexivity.
Qed.

Lemma split_lacks_app (sep : ascii) (a rest : string) :
  lacks sep a = true ->
  Js.split sep (a ++ String sep rest) = a :: Js.split sep rest.
Proof.
  unfold lacks. induction a as [|c a IH]; simpl.
  - rewrite Ascii.eqb_refl. reflexivity.
  - intros H. apply andb_true_iff in H. destruct H as [Hc Ha].
    apply negb_true_iff in Hc. rewrite Hc, (IH Ha). reflexivity.
Qed.

Lemma split_parts_lack (sep : ascii) (s : string) :
  Forall (fun part => lacks sep part = true) (Js.split sep s).
Proof.
  induction s as [|c s IH]; simpl.
  - constructor; [reflexivity|constructor].
  - destruct (Ascii.eqb c sep) eqn:E.
    + constructor; [reflexivity|exact IH].
    + destruct (Js.split sep s) as [|part parts].
      * constructor; [|constructor]. unfold lacks. simpl. rewrite E.
        reflexivity.
      * inversion IH as [|? ? Hpart Hparts]; subst.
        constructor; [|exact Hparts]. unfold lacks in *. simpl.
        rewrite E, Hpart. reflexivity.
Qed.

Lemma truthy_iff (s : string) : Js.truthy s = true <-> s <> "".
Proof. destruct s; simpl; split; congruence. Qed.

(** The reader's data URL of a file, "data:", the media type, ";base64,"
    and the payload, is taken apart into the media type and the payload. *)
Theorem dataUrlParts_data_url (mime payload : string) :
  mime <> "" -> lacks "," mime = true -> lacks ":" mime = true ->
  lacks ";" mime = true ->
  payload <> "" -> lacks "," payload = true ->
  dataUrlParts (Some ("data:" ++ mime ++ ";base64," ++ payload))
  = inr (mime, payload).
Proof.
  intros Hm Hc1 Hc2 Hc3 Hp Hc4.
  assert (Hres : "data:" ++ mime ++ ";base64," ++ payload
                 = ("data:" ++ mime ++ ";base64") ++ String "," payload).
  { rewrite !app_assoc. reflexivity. }
  assert (Hhead : lacks "," ("data:" ++ mime ++ ";base64") = true).
  { unfold lacks in *. rewrite !allOf_app, Hc1. reflexivity. }
  assert (Hinc : Js.includes ("data:" ++ mime ++ ";base64," ++ payload) ","
                 = true).
  { apply includes_iff. exists ("data:" ++ mime ++ ";base64"), payload.
    exact Hres. }
  assert (Ht : Js.truthy ("data:" ++ mime ++ ";base64," ++ payload) = true)
    by reflexivity.
  unfold dataUrlParts. rewrite Hinc, Ht. cbn [negb orb].
  rewrite Hres, (split_lacks_app "," _ payload Hhead),
    (split_lacks "," payload Hc4).
  cbn [nth].
  change ("data:" ++ mime ++ ";base64")
    with ("data" ++ String ":" (mime ++ ";base64")).
  rewrite (split_lacks_app ":" "data" _ eq_refl).
  rewrite (split_lacks ":" (mime ++ ";base64"))
    by (unfold lacks in *; rewrite allOf_app, Hc2; reflexivity).
  cbn [nth_error].
  change (mime ++ ";base64") with (mime ++ String ";" "base64").
  rewrite (split_lacks_app ";" mime _ Hc3). cbn [nth orEmpty].
  apply truthy_iff in Hm, Hp. rewrite Hm, Hp. reflexivity.
Qed.

Lemma dataUrlParts_data_url_witness :
  dataUrlParts (Some ("data:" ++ "image/jpeg" ++ ";base64," ++ "/9j/4AAQ"))
  = inr ("image/jpeg", "/9j/4AAQ").
Proof.
  apply (dataUrlParts_data_url "image/jpeg" "/9j/4AAQ");
    (discriminate || reflexivity).
Defined.

Lemma dataUrlParts_kept (result : option string) (mime payload : string) :
  dataUrlParts result = inr (mime, payload) ->
  mime <> "" /\ payload <> ""
  /\ lacks ";" mime = true /\ lacks "," payload = true.
Proof.
  destruct result as [result|]; [|discriminate].
  unfold dataUrlParts.
  destruct (negb (Js.truthy result) || negb (Js.includes result ","));
    [discriminate|].
  destruct (nth_error (Js.split ":" (nth 0 (Js.split "," result) "")) 1)
    as [afterColon|]; [|discriminate].
  remember (nth 0 (Js.split ";" afterColon) "") as first eqn:Efirst.
  remember (nth_error (Js.split "," result) 1) as second eqn:Esecond.
  destruct (negb (Js.truthy first) || negb (Js.truthy (orEmpty second)))
    eqn:E; [discriminate|].
  intros H. injection H as <- <-.
  apply orb_false_iff in E. destruct E as [Em Ep].
  apply negb_false_iff, truthy_iff in Em, Ep.
  split; [exact Em|]. split; [exact Ep|]. split.
  - pose proof (split_parts_lack ";" afterColon) as Hall.
    destruct (Js.split ";" afterColon) as [|part parts];
      subst first; [reflexivity|].
    inversion Hall. assumption.
  - pose proof (split_parts_lack "," result) as Hall.
    destruct second as [part|]; [|reflexivity].
    symmetry in Esecond. apply nth_error_In in Esecond.
    rewrite Forall_forall in Hall. apply Hall. exact Esecond.
Qed.

(** What a reader gives is used only if it holds a comma; then the media
    type and the payload that are kept are not empty, the media type has
    no semicolon and the payload no comma. *)
Theorem dataUrlParts_accepts :
  (forall result : string,
     Js.includes result "," = false ->
     dataUrlParts (Some result) = inl InvalidResult)
  /\ dataUrlParts None = inl InvalidResult
  /\ forall (result : option string) (mime payload : string),
       dataUrlParts result = inr (mime, payload) ->
       mime <> "" /\ payload <> ""
       /\ lacks ";" mime = true /\ lacks "," payload = true.
Proof.
  split; [|split; [reflexivity|exact dataUrlParts_kept]].
  intros result H. unfold dataUrlParts. rewrite H, orb_true_r.
  reflexivity.
Qed.

Lemma dataUrlParts_accepts_witness :
  dataUrlParts (Some "no data url") = inl InvalidResult.
Proof.
  apply (proj1 dataUrlParts_accepts "no data url"). reflexivity.
Defined.

(** ** The queue and the previews *)

Lemma queueShown_same (s t : page) :
  uploadedFiles t = uploadedFiles s -> previews t = previews s ->
  queueShown s -> queueShown t.
Proof. unfold queueShown. intros -> ->. exact (fun H => H). Qed.

Lemma queueShown_resetApp (s : page) : queueShown (resetApp s).
Proof. split; [reflexivity|constructor]. Qed.

Lemma queueShown_addFilesToQueue (files : list File) (s : page) :
  queueShown s -> queueShown (addFilesToQueue files s).
Proof.
  unfold addFilesToQueue.
  destruct (MAX_FILES <? _)%nat; apply queueShown_same; reflexivity.
Qed.

Lemma queueShown_select (files : option (list File)) (s : page) :
  queueShown s -> queueShown (handleNewFileSelection files s).
Proof.
  intros H. destruct files as [[|f fs]|]; try exact H.
  apply queueShown_addFilesToQueue, queueShown_resetApp.
Qed.

Lemma queueShown_onloadend (f : File) (result : option string) (s : page) :
  queueShown s -> queueShown (onloadend f result s).
Proof.
  intros [Hlen Hall]. unfold onloadend.
  destruct (dataUrlParts result) as [?|[m b]] eqn:E.
  - split; assumption.
  - pose proof (dataUrlParts_kept result m b E) as Hkept.
    split; cbn.
    + rewrite !length_app, Hlen. reflexivity.
    + apply Forall_app. split; [exact Hall|].
      constructor; [exact Hkept|constructor].
Qed.

Lemma queueShown_handle (s s' : page) (e : event) :
  handle s e = Some s' -> queueShown s -> queueShown s'.
Proof.
  intros He H. destruct e; cbn [handle] in He.
  - injection He as <-. exact H.
  - injection He as <-. exact H.
  - injection He as <-. unfold andThen. destruct files as [files|].
    + apply (queueShown_select (Some files)). exact H.
    + exact H.
  - injection He as <-. destruct files as [files|]; [|exact H].
    apply (queueShown_select (Some files)). exact H.
  - destruct items as [items|]; [|injection He as <-; exact H].
    destruct (0 <? _)%nat; injection He as <-; [|exact H].
    apply (queueShown_select (Some _)). exact H.
  - destruct (nth_error (readers s) reader) as [f|]; [|discriminate].
    injection He as <-. apply queueShown_onloadend. exact H.
  - destruct (nth_error (readers s) reader) as [f|]; [|discriminate].
    injection He as <-. exact H.
  - destruct (List.length (uploadedFiles s) =? 0)%nat; injection He as <-;
      exact H.
  - destruct (nth_error (awaited s) click) as [calls|]; [|discriminate].
    destruct outcome as [rs|].
    + destruct (List.length rs =? calls)%nat; [|discriminate].
      destruct (displayResults rs _) as [t|t] eqn:Ed; injection He as <-.
      * destruct (displayResults_frame rs _ t (or_introl Ed))
          as (H1 & H2 & H3).
        exact (queueShown_same s _ H1 H3 H).
      * destruct (displayResults_frame rs _ t (or_intror Ed))
          as (H1 & H2 & H3).
        exact (queueShown_same s _ H1 H3 H).
    + injection He as <-. exact H.
  - injection He as <-. apply queueShown_resetApp.
Qed.

(** Whatever events follow one another, imagePreviewGrid has one child
    for each queued file, and every queued file has a media type without
    semicolon and a payload without comma, neither empty, once that holds
    (as after a reset). *)
Theorem page_queue_shown (es : list event) (s s' : page) :
  run s es = Some s' -> queueShown s -> queueShown s'.
Proof.
  revert s. induction es as [|e es IH]; intros s Hrun H.
  - injection Hrun as <-. exact H.
  - cbn [run] in Hrun. destruct (handle s e) as [s1|] eqn:He; [|discriminate].
    apply (IH s1 Hrun). apply (queueShown_handle s s1 e He H).
Qed.

Lemma page_queue_shown_witness :
  match run Page.blank
          [Change (Some [photo]);
           LoadEnd 0 (Some "data:image/png;base64,iVBORw0KGgo=")]
  with
  | Some s' => queueShown s'
  | None => False
  end.
Proof.
  destruct (run Page.blank
              [Change (Some [photo]);
               LoadEnd 0 (Some "data:image/png;base64,iVBORw0KGgo=")])
    as [s'|] eqn:E.
  - apply (page_queue_shown _ Page.blank s' E). apply queueShown_resetApp.
  - vm_compute in E. discriminate.
Defined.

(** ** The limit on the number of files *)

Lemma length_without {A : Type} (i : nat) (xs : list A) (x : A) :
  nth_error xs i = Some x ->
  S (List.length (without i xs)) = List.length xs.
Proof.
  revert i. induction xs as [|y xs IH]; intros [|i] H; try discriminate.
  - reflexivity.
  - simpl in *. rewrite (IH i H). reflexivity.
Qed.

Lemma withinLimit_same (s t : page) :
  uploadedFiles t = uploadedFiles s -> readers t = readers s ->
  withinLimit s -> withinLimit t.
Proof. unfold withinLimit. intros -> ->. exact (fun H => H). Qed.

Lemma withinLimit_select (files : option (list File)) (s : page) :
  (match files with Some (_ :: _) => readers s = [] | _ => True end) ->
  withinLimit s -> withinLimit (handleNewFileSelection files s).
Proof.
  intros Hquiet H. destruct files as [[|f fs]|]; try exact H.
  unfold handleNewFileSelection, addFilesToQueue.
  destruct (MAX_FILES <? _)%nat eqn:E; unfold withinLimit; cbn.
  - rewrite Hquiet. simpl. lia.
  - apply Nat.ltb_ge in E. cbn in E. rewrite Hquiet. simpl. lia.
Qed.

Lemma withinLimit_handle (s s' : page) (e : event) :
  handle s e = Some s' ->
  (selects e = true -> readers s = []) ->
  withinLimit s -> withinLimit s'.
Proof.
  intros He Hquiet H. destruct e; cbn [handle] in He.
  - injection He as <-. exact H.
  - injection He as <-. exact H.
  - injection He as <-. unfold andThen. destruct files as [files|]; [|exact H].
    apply (withinLimit_select (Some files)); [|exact H].
    destruct files; [exact I|]. apply Hquiet. reflexivity.
  - injection He as <-. destruct files as [files|]; [|exact H].
    apply (withinLimit_select (Some files)); [|exact H].
    destruct files; [exact I|]. apply Hquiet. reflexivity.
  - destruct items as [items|]; [|injection He as <-; exact H].
    cbn [selects] in Hquiet.
    destruct (0 <? _)%nat; injection He as <-; [|exact H].
    apply (withinLimit_select (Some _)); [|exact H].
    destruct (createFileList (pastedImages items)); [exact I|].
    apply Hquiet. reflexivity.
  - destruct (nth_error (readers s) reader) as [f|] eqn:En; [|discriminate].
    injection He as <-. pose proof (length_without _ _ _ En) as Hlen.
    unfold withinLimit in *. unfold onloadend.
    destruct (dataUrlParts result) as [?|[m b]]; cbn.
    + lia.
    + rewrite length_app. simpl. lia.
  - destruct (nth_error (readers s) reader) as [f|]; [|discriminate].
    injection He as <-. exact H.
  - destruct (List.length (uploadedFiles s) =? 0)%nat; injection He as <-;
      exact H.
  - destruct (nth_error (awaited s) click) as [calls|]; [|discriminate].
    destruct outcome as [rs|].
    + destruct (List.length rs =? calls)%nat; [|discriminate].
      destruct (displayResults rs _) as [t|t] eqn:Ed; injection He as <-.
      * destruct (displayResults_frame rs _ t (or_introl Ed))
          as (H1 & H2 & H3).
        exact (withinLimit_same s _ H1 H2 H).
      * destruct (displayResults_frame rs _ t (or_intror Ed))
          as (H1 & H2 & H3).
        exact (withinLimit_same s _ H1 H2 H).
    + injection He as <-. exact H.
  - injection He as <-. unfold withinLimit in *. cbn. lia.
Qed.

(** As long as files are selected only when no reader is at work, the
    queue and the files being read never hold more than MAX_FILES files. *)
Theorem page_within_limit (es : list event) (s s' : page) :
  run s es = Some s' -> calm s es = true -> withinLimit s ->
  withinLimit s'
  /\ (List.length (uploadedFiles s') <= MAX_FILES)%nat.
Proof.
  intros Hrun Hcalm H.
  assert (Hs' : withinLimit s').
  { revert s Hrun Hcalm H. induction es as [|e es IH]; intros s Hrun Hcalm H.
    - injection Hrun as <-. exact H.
    - cbn [run calm] in Hrun, Hcalm.
      destruct (handle s e) as [s1|] eqn:He; [|discriminate].
      apply andb_true_iff in Hcalm. destruct Hcalm as [Hq Hcalm].
      apply (IH s1 Hrun Hcalm). apply (withinLimit_handle s s1 e He); [|exact H].
      intros Hsel. rewrite Hsel in Hq.
      destruct (readers s); [reflexivity|discriminate]. }
  split; [exact Hs'|]. unfold withinLimit in Hs'. lia.
Qed.

Lemma page_within_limit_witness :
  match run Page.blank
          [Drop (Some (repeat photo 10));
           LoadEnd 3 (Some "data:image/png;base64,iVBORw0KGgo=");
           LoadEnd 0 None]
  with
  | Some s' =>
      withinLimit s' /\ (List.length (uploadedFiles s') <= MAX_FILES)%nat
  | None => False
  end.
Proof.
  destruct (run Page.blank
              [Drop (Some (repeat photo 10));
               LoadEnd 3 (Some "data:image/png;base64,iVBORw0KGgo=");
               LoadEnd 0 None])
    as [s'|] eqn:E.
  - apply (page_within_limit _ Page.blank s' E).
    + vm_compute. reflexivity.
    + unfold withinLimit. simpl. unfold MAX_FILES. lia.
  - vm_compute in E. discriminate.
Defined.

(** MAX_FILES bounds a selection, not the queue: a reset does not stop the
    readers of the selection before, and what they read is queued after
    it.  One file and then ten, each selection within the limit, leave
    eleven files in the queue. *)
Theorem page_limit_overrun :
  forallb (fun e => match e with
                    | Drop (Some files) =>
                        (List.length files <=? MAX_FILES)%nat
                    | _ => true
                    end) overlapping = true
  /\ option_map (fun s => List.length (uploadedFiles s))
                (run Page.blank overlapping)
     = Some (S MAX_FILES).
Proof. split; vm_compute; reflexivity. Qed.

(** ** A selection of files *)

(** A selection of more than MAX_FILES files is refused whole: the queue
    and the previews are empty, no reader starts, the picker is cleared and
    the error names the limit and a count of zero.  A smaller selection
    empties the queue, starts a reader for each file and enables the
    process button at once. *)
Theorem page_selection (f : File) (fs : list File) (s : page) :
  let s' := handleNewFileSelection (Some (f :: fs)) s in
  uploadedFiles s' = [] /\ previews s' = [] /\ results s' = []
  /\ ((MAX_FILES < List.length (f :: fs))%nat ->
      readers s' = readers s
      /\ value s' = ""
      /\ classList s' errorMessage "hidden" = false
      /\ textContent s' errorMessage
         = "Total file tidak boleh melebihi 10. Saat ini ada 0 file."
      /\ disabled s' processButton = true
      /\ classList s' imagePreviewContainer "hidden" = true)
  /\ ((List.length (f :: fs) <= MAX_FILES)%nat ->
      readers s' = (readers s ++ f :: fs)%list
      /\ classList s' errorMessage "hidden" = true
      /\ disabled s' processButton = false
      /\ classList s' imagePreviewContainer "hidden" = false
      /\ classList s' resetButton "hidden" = false).
Proof.
  cbv zeta. unfold handleNewFileSelection, addFilesToQueue.
  change (List.length (uploadedFiles (resetApp s))) with 0%nat.
  cbn [Nat.add].
  destruct (MAX_FILES <? List.length (f :: fs))%nat eqn:E;
    (split; [reflexivity|]); (split; [reflexivity|]);
    (split; [reflexivity|]); split; intros Hlen;
    try (repeat split; reflexivity).
  - apply Nat.ltb_lt in E. lia.
  - apply Nat.ltb_ge in E. lia.
Qed.

Lemma page_selection_witness :
  textContent (handleNewFileSelection (Some (photo :: repeat photo 10))
                                      Page.blank) errorMessage
  = "Total file tidak boleh melebihi 10. Saat ini ada 0 file."
  /\ readers (handleNewFileSelection (Some (photo :: repeat photo 2))
                                     Page.blank)
     = (readers Page.blank ++ photo :: repeat photo 2)%list.
Proof.
  split.
  - apply (proj1 (proj2 (proj2 (proj2 (page_selection photo (repeat photo 10)
                                         Page.blank))))).
    vm_compute. lia.
  - apply (proj2 (proj2 (proj2 (proj2 (page_selection photo (repeat photo 2)
                                         Page.blank))))).
    vm_compute. lia.
Defined.

(** ** The results of an extraction *)







End PageFacts.
